(** * Schedulify: the timetable generation core

    A shallow embedding of [src/lib/timetableAlgorithm.ts] (class
    [TimetableGenerator]) and the properties its specification states
    about the Session Expander ([createCourseEntries] and the expansion
    loop of [generateTimetable]), the Slot Assigner ([scheduleEntries],
    [isSlotAvailable]) and the Conflict Detector ([detectConflicts]).

    Conventions of the embedding:
    - a TypeScript [string] is a [string]; [===] on strings is [=];
    - a [number] holding a count (hours, semester, duration, headcount) is
      an integer [Z]; the forms of the application store [parseInt] results;
    - an array is a [list]; [Map<string, Set<string>>] is a
      [gmap string (gset string)]; the [Map] whose iteration order the code
      relies on ([slotMap]) is an association list in insertion order;
    - [Date.now()] is an oracle [clk : nat -> Z]: [clk n] is the value of
      the [n]-th reading taken during one run;
    - [String.prototype.toLowerCase] is left abstract, as the one operation
      of the class [JsRuntime]. *)

From stdpp Require Import gmap strings list pretty.

Open Scope string_scope.
Open Scope list_scope.

(* [set_solver] clears hypotheses by name, some of which do not exist. *)
#[local] Set Warnings "-clear-no-such-hyp".

(** ** Data model *)

Module TimeSlot.
Record t := mk { day : string; time : string; duration : Z }.
End TimeSlot.

(** [type: 'theory' | 'practical'] *)
Inductive SessionType := theory | practical.

Module TimetableEntry.
Record t := mk {
  id : string;
  courseId : string;
  courseName : string;
  courseCode : string;
  facultyId : string;
  facultyName : string;
  roomId : string;
  roomName : string;
  programId : string;
  programName : string;
  timeSlot : TimeSlot.t;
  studentCount : Z;
  type : SessionType
}.
End TimetableEntry.

Module Constraint.
Inductive kind :=
| faculty_conflict
| room_conflict
| student_conflict
| faculty_availability
| room_availability.
Inductive level := high | medium | low.
Record t := mk { type : kind; description : string; severity : level }.
End Constraint.

Module GenerationResult.
Record t := mk {
  timetable : list TimetableEntry.t;
  conflicts : list Constraint.t;
  success : bool;
  message : string
}.
End GenerationResult.

Module Program.
Record t := mk { id : string; name : string; type : string }.
End Program.

Module Course.
Record t := mk {
  id : string;
  name : string;
  code : string;
  program : string;
  isElective : bool;
  semester : Z;
  theoryHours : Z;
  practicalHours : Z;
  description : string
}.
End Course.

(** [unavailableSlots?: string[]] is optional: [None] is [undefined]. *)
Module Faculty.
Record t := mk {
  id : string;
  name : string;
  canTeachPrograms : list string;
  expertise : list string;
  unavailableSlots : option (list string)
}.
End Faculty.

Module Room.
Record t := mk {
  id : string;
  name : string;
  type : string;
  unavailableSlots : option (list string)
}.
End Room.

#[global] Instance SessionType_eq_dec : EqDecision SessionType.
Proof. solve_decision. Defined.
#[global] Instance level_eq_dec : EqDecision Constraint.level.
Proof. solve_decision. Defined.

(** The four private fields of the class, as [loadData] leaves them. *)
Record TimetableGenerator := {
  programs : list Program.t;
  courses : list Course.t;
  faculty : list Faculty.t;
  rooms : list Room.t
}.

Definition WEEKDAYS : list string :=
  ["Monday"; "Tuesday"; "Wednesday"; "Thursday"; "Friday"; "Saturday"].

Definition TIME_SLOTS : list string :=
  ["09:00-10:00"; "10:00-11:00"; "11:00-12:00"; "12:00-13:00";
   "13:00-14:00"; "14:00-15:00"; "15:00-16:00"; "16:00-17:00"].

(** ** JavaScript helpers *)

(** [s.includes(x)] on strings: [x] occurs in [s] as a substring. *)
Fixpoint str_includes (s x : string) : bool :=
  String.prefix x s ||
  match s with
  | EmptyString => false
  | String _ s' => str_includes s' x
  end.

(** The part of the JavaScript runtime that the embedding leaves abstract:
    [String.prototype.toLowerCase]. *)
Class JsRuntime := { toLowerCase : string → string }.

(** [toLowerCase] on the letters A to Z; the other characters are kept.
    It stands for [String.prototype.toLowerCase] where the model is run on
    sample catalogs. *)
Definition lowerAscii (c : Ascii.ascii) : Ascii.ascii :=
  let n := Ascii.nat_of_ascii c in
  if (65 <=? n)%nat && (n <=? 90)%nat then Ascii.ascii_of_nat (n + 32) else c.

Fixpoint asciiLower (s : string) : string :=
  match s with
  | EmptyString => EmptyString
  | String c s' => String (lowerAscii c) (asciiLower s')
  end.

(** The runtime the sample catalogs are run on. *)
Definition asciiRuntime : JsRuntime := {| toLowerCase := asciiLower |}.

(** [arr.includes(x)] on an array of strings. *)
Definition includes (arr : list string) (x : string) : bool :=
  bool_decide (x ∈ arr).

(** [`${type}`] *)
Definition typeLabel (ty : SessionType) : string :=
  match ty with theory => "theory" | practical => "practical" end.

(** [entry.timeSlot = ts] *)
Definition setTimeSlot (e : TimetableEntry.t) (ts : TimeSlot.t) : TimetableEntry.t :=
  TimetableEntry.mk
    (TimetableEntry.id e) (TimetableEntry.courseId e)
    (TimetableEntry.courseName e) (TimetableEntry.courseCode e)
    (TimetableEntry.facultyId e) (TimetableEntry.facultyName e)
    (TimetableEntry.roomId e) (TimetableEntry.roomName e)
    (TimetableEntry.programId e) (TimetableEntry.programName e)
    ts (TimetableEntry.studentCount e) (TimetableEntry.type e).

(** ** Session Expander *)

(** [baseCounts[program.type] || 30] over the four keys of the literal
    (a program type that names a member of [Object.prototype] is outside the
    model). *)
Definition estimateStudentCount (program : Program.t) : Z :=
  let ty := Program.type program in
  if bool_decide (ty = "B.Ed") then 40
  else if bool_decide (ty = "M.Ed") then 30
  else if bool_decide (ty = "FYUP") then 60
  else if bool_decide (ty = "ITEP") then 35
  else 30.

(** The room filter of [createCourseEntries]. *)
Definition roomSuits (ty : SessionType) (room : Room.t) : bool :=
  match ty with
  | practical =>
    bool_decide (Room.type room = "Laboratory") ||
    bool_decide (Room.type room = "Computer Lab")
  | theory =>
    bool_decide (Room.type room = "Classroom") ||
    bool_decide (Room.type room = "Seminar Hall")
  end.

(** [`${course.id}-${type}-${i}-${Date.now()}`] *)
Definition entryId (course : Course.t) (ty : SessionType) (i : nat) (stamp : Z) : string :=
  Course.id course +:+ "-" +:+ typeLabel ty +:+ "-" +:+ pretty i +:+ "-" +:+ pretty stamp.

(** [{ day: '', time: '', duration: 1 }] *)
Definition unsetSlot : TimeSlot.t := TimeSlot.mk EmptyString EmptyString 1.

(** The expertise test of the faculty filter. *)
Definition expertiseMatches `{!JsRuntime} (course : Course.t) (exp : string) : bool :=
  str_includes (toLowerCase (Course.name course)) (toLowerCase exp) ||
  str_includes (toLowerCase (Course.description course)) (toLowerCase exp).

Definition canTeach (program : Program.t) (f : Faculty.t) : bool :=
  includes (Faculty.canTeachPrograms f) (Program.id program).

(** [f.expertise.some(...)] under the program filter. *)
Definition isSuitableFaculty `{!JsRuntime} (course : Course.t) (program : Program.t)
    (f : Faculty.t) : bool :=
  canTeach program f &&
  existsb (expertiseMatches course) (Faculty.expertise f).

(** [suitableFaculty[0] || this.faculty[0]], after the fallback push. *)
Definition selectFaculty `{!JsRuntime} (this : TimetableGenerator) (course : Course.t)
    (program : Program.t) : option Faculty.t :=
  let suitableFaculty := List.filter (isSuitableFaculty course program) (faculty this) in
  let suitableFaculty :=
    match suitableFaculty with
    | [] => suitableFaculty ++ List.filter (canTeach program) (faculty this)
    | _ => suitableFaculty
    end in
  match head suitableFaculty with
  | Some f => Some f
  | None => head (faculty this)
  end.

(** [suitableRooms[0] || this.rooms[0]] *)
Definition selectRoom (this : TimetableGenerator) (ty : SessionType) : option Room.t :=
  let suitableRooms := List.filter (roomSuits ty) (rooms this) in
  match head suitableRooms with
  | Some r => Some r
  | None => head (rooms this)
  end.

(** The object literal pushed by the loop of [createCourseEntries]. *)
Definition newEntry (course : Course.t) (program : Program.t) (ty : SessionType)
    (selectedFaculty : Faculty.t) (selectedRoom : Room.t)
    (i : nat) (stamp : Z) : TimetableEntry.t :=
  TimetableEntry.mk
    (entryId course ty i stamp)
    (Course.id course) (Course.name course) (Course.code course)
    (Faculty.id selectedFaculty) (Faculty.name selectedFaculty)
    (Room.id selectedRoom) (Room.name selectedRoom)
    (Program.id program) (Program.name program)
    unsetSlot
    (estimateStudentCount program)
    ty.

(** [createCourseEntries]; [k] clock readings were taken before the call,
    the loop takes one per pushed entry. *)
Definition createCourseEntries `{!JsRuntime} (this : TimetableGenerator) (clk : nat → Z) (k : nat)
    (course : Course.t) (program : Program.t) (ty : SessionType) (hours : Z)
    : list TimetableEntry.t :=
  match selectFaculty this course program with
  | None => []
  | Some selectedFaculty =>
    match selectRoom this ty with
    | None => []
    | Some selectedRoom =>
      (λ i, newEntry course program ty selectedFaculty selectedRoom i (clk (k + i)%nat))
        <$> seq 0 (Z.to_nat hours)
    end
  end.

(** [this.programs.find(p => p.id === course.program)] *)
Definition findProgram (this : TimetableGenerator) (course : Course.t) : option Program.t :=
  find (λ p, bool_decide (Program.id p = Course.program course)) (programs this).

(** One iteration of the expansion loop of [generateTimetable]: the
    entries pushed onto [timetable] for [course]. *)
Definition courseEntries `{!JsRuntime} (this : TimetableGenerator) (clk : nat → Z) (k : nat)
    (course : Course.t) : list TimetableEntry.t :=
  match findProgram this course with
  | None => []
  | Some program =>
    let theoryEntries :=
      if bool_decide (0 < Course.theoryHours course)%Z
      then createCourseEntries this clk k course program theory (Course.theoryHours course)
      else [] in
    let k := (k + length theoryEntries)%nat in
    let practicalEntries :=
      if bool_decide (0 < Course.practicalHours course)%Z
      then createCourseEntries this clk k course program practical (Course.practicalHours course)
      else [] in
    theoryEntries ++ practicalEntries
  end.

(** The expansion loop: [for (const course of sortedCourses) ...]. *)
Fixpoint generateEntries `{!JsRuntime} (this : TimetableGenerator) (clk : nat → Z) (k : nat)
    (sortedCourses : list Course.t) : list TimetableEntry.t :=
  match sortedCourses with
  | [] => []
  | course :: rest =>
    let pushed := courseEntries this clk k course in
    pushed ++ generateEntries this clk (k + length pushed)%nat rest
  end.

(** ** Slot Assigner *)

(** [`${day}-${timeSlot}`], the key of a grid cell. *)
Definition slotKey (day timeSlot : string) : string :=
  day +:+ "-" +:+ timeSlot.

(** [`faculty-${entry.facultyId}`] and [`room-${entry.roomId}`] *)
Definition facultyTag (e : TimetableEntry.t) : string :=
  "faculty-" +:+ TimetableEntry.facultyId e.
Definition roomTag (e : TimetableEntry.t) : string :=
  "room-" +:+ TimetableEntry.roomId e.

(** [list && list.includes(timeSlot)] on an optional list. *)
Definition listsSlot (unavailableSlots : option (list string)) (timeSlot : string) : bool :=
  match unavailableSlots with
  | Some l => includes l timeSlot
  | None => false
  end.

Definition isSlotAvailable (this : TimetableGenerator)
    (facultyId roomId day timeSlot : string) : bool :=
  match find (λ f, bool_decide (Faculty.id f = facultyId)) (faculty this),
        find (λ r, bool_decide (Room.id r = roomId)) (rooms this) with
  | Some f, Some r =>
    if listsSlot (Faculty.unavailableSlots f) timeSlot then false
    else if listsSlot (Room.unavailableSlots r) timeSlot then false
    else true
  | _, _ => false
  end.

(** The inner loop of [scheduleEntries] over the time labels of one day.
    It returns the occupancy map and, when a cell was assigned, the entry
    with its slot set ([assigned = true]). *)
Fixpoint tryTimeSlots (this : TimetableGenerator) (entry : TimetableEntry.t)
    (day : string) (timeSlots : list string)
    (occupiedSlots : gmap string (gset string))
    : gmap string (gset string) * option TimetableEntry.t :=
  match timeSlots with
  | [] => (occupiedSlots, None)
  | timeSlot :: rest =>
    let slotKey := slotKey day timeSlot in
    let occupiedSlots :=
      match occupiedSlots !! slotKey with
      | None => <[slotKey := ∅]> occupiedSlots
      | Some _ => occupiedSlots
      end in
    let occupiedResources := default ∅ (occupiedSlots !! slotKey) in
    if negb (bool_decide (facultyTag entry ∈ occupiedResources)) &&
       negb (bool_decide (roomTag entry ∈ occupiedResources)) &&
       isSlotAvailable this (TimetableEntry.facultyId entry)
         (TimetableEntry.roomId entry) day timeSlot
    then
      (<[slotKey := {[roomTag entry]} ∪ ({[facultyTag entry]} ∪ occupiedResources)]>
         occupiedSlots,
       Some (setTimeSlot entry (TimeSlot.mk day timeSlot 1)))
    else tryTimeSlots this entry day rest occupiedSlots
  end.

(** The outer loop over the days, left as soon as a cell was assigned. *)
Fixpoint tryDays (this : TimetableGenerator) (entry : TimetableEntry.t)
    (days : list string) (occupiedSlots : gmap string (gset string))
    : gmap string (gset string) * option TimetableEntry.t :=
  match days with
  | [] => (occupiedSlots, None)
  | day :: rest =>
    match tryTimeSlots this entry day TIME_SLOTS occupiedSlots with
    | (occupiedSlots, Some entry) => (occupiedSlots, Some entry)
    | (occupiedSlots, None) => tryDays this entry rest occupiedSlots
    end
  end.

(** [for (const entry of entries)]: every entry is pushed onto
    [scheduled], with or without a slot.  The assignment
    [entry.timeSlot = ...] writes into the entry itself; the entries are
    distinct objects, each a fresh literal of [createCourseEntries], so the
    write is an update of that one element of the list. *)
Fixpoint scheduleFrom (this : TimetableGenerator)
    (occupiedSlots : gmap string (gset string))
    (entries : list TimetableEntry.t) : list TimetableEntry.t :=
  match entries with
  | [] => []
  | entry :: rest =>
    let '(occupiedSlots, assigned) := tryDays this entry WEEKDAYS occupiedSlots in
    default entry assigned :: scheduleFrom this occupiedSlots rest
  end.

Definition scheduleEntries (this : TimetableGenerator)
    (entries : list TimetableEntry.t) : list TimetableEntry.t :=
  scheduleFrom this ∅ entries.

(** ** Conflict Detector *)

(** [entry.timeSlot.day && entry.timeSlot.time]: both strings non-empty. *)
Definition isScheduled (e : TimetableEntry.t) : bool :=
  negb (bool_decide (TimeSlot.day (TimetableEntry.timeSlot e) = EmptyString)) &&
  negb (bool_decide (TimeSlot.time (TimetableEntry.timeSlot e) = EmptyString)).

Definition entryKey (e : TimetableEntry.t) : string :=
  slotKey (TimeSlot.day (TimetableEntry.timeSlot e))
          (TimeSlot.time (TimetableEntry.timeSlot e)).

(** [slotMap : Map<string, TimetableEntry[]>], keys in insertion order. *)
Definition SlotMap := list (string * list TimetableEntry.t).

Definition slotMap_get (key : string) (m : SlotMap) : option (list TimetableEntry.t) :=
  snd <$> find (λ kv, bool_decide (kv.1 = key)) m.

(** [Map.set]: an existing key keeps its place, a new key goes last. *)
Fixpoint slotMap_set (key : string) (v : list TimetableEntry.t) (m : SlotMap) : SlotMap :=
  match m with
  | [] => [(key, v)]
  | (k, w) :: m' =>
    if bool_decide (k = key) then (k, v) :: m' else (k, w) :: slotMap_set key v m'
  end.

Definition unscheduledConflict (e : TimetableEntry.t) : Constraint.t :=
  Constraint.mk Constraint.faculty_conflict
    ("Course " +:+ TimetableEntry.courseCode e +:+ " (" +:+
     TimetableEntry.courseName e +:+ ") could not be scheduled")
    Constraint.high.

Definition facultyClash (slot : string) (e : TimetableEntry.t) : Constraint.t :=
  Constraint.mk Constraint.faculty_conflict
    ("Faculty " +:+ TimetableEntry.facultyName e +:+
     " has multiple classes at " +:+ slot)
    Constraint.high.

Definition roomClash (slot : string) (e : TimetableEntry.t) : Constraint.t :=
  Constraint.mk Constraint.room_conflict
    ("Room " +:+ TimetableEntry.roomName e +:+
     " has multiple classes at " +:+ slot)
    Constraint.high.

(** The callback of [timetable.forEach]: group the entry under its key,
    or report it as unscheduled. *)
Definition groupEntry (acc : SlotMap * list Constraint.t) (entry : TimetableEntry.t)
    : SlotMap * list Constraint.t :=
  let '(slotMap, conflicts) := acc in
  if isScheduled entry then
    let key := entryKey entry in
    let slotMap :=
      match slotMap_get key slotMap with
      | None => slotMap_set key [] slotMap
      | Some _ => slotMap
      end in
    (slotMap_set key (default [] (slotMap_get key slotMap) ++ [entry]) slotMap,
     conflicts)
  else (slotMap, conflicts ++ [unscheduledConflict entry]).

(** The callback of the inner [entries.forEach] of one cell. *)
Definition checkEntry (slot : string)
    (acc : gset string * gset string * list Constraint.t) (entry : TimetableEntry.t)
    : gset string * gset string * list Constraint.t :=
  let '(facultyIds, roomIds, conflicts) := acc in
  let conflicts :=
    if bool_decide (TimetableEntry.facultyId entry ∈ facultyIds)
    then conflicts ++ [facultyClash slot entry] else conflicts in
  let facultyIds := {[TimetableEntry.facultyId entry]} ∪ facultyIds in
  let conflicts :=
    if bool_decide (TimetableEntry.roomId entry ∈ roomIds)
    then conflicts ++ [roomClash slot entry] else conflicts in
  let roomIds := {[TimetableEntry.roomId entry]} ∪ roomIds in
  (facultyIds, roomIds, conflicts).

(** The callback of [slotMap.forEach]. *)
Definition checkSlot (conflicts : list Constraint.t)
    (kv : string * list TimetableEntry.t) : list Constraint.t :=
  let '(slot, entries) := kv in
  (fold_left (checkEntry slot) entries (∅, ∅, conflicts)).2.

Definition detectConflicts (timetable : list TimetableEntry.t) : list Constraint.t :=
  let '(slotMap, conflicts) := fold_left groupEntry timetable ([], []) in
  fold_left checkSlot slotMap conflicts.

(** ** The generation call *)

(** The comparator passed to [relevantCourses.sort]. *)
Definition compareCourses (a b : Course.t) : Z :=
  if negb (Bool.eqb (Course.isElective a) (Course.isElective b))
  then (if Course.isElective a then 1 else -1)
  else Course.semester a - Course.semester b.

(** [Array.prototype.sort] is stable: [x] goes in front of the first
    element it does not compare greater than. *)
Fixpoint sortInsert (cmp : Course.t → Course.t → Z) (x : Course.t)
    (l : list Course.t) : list Course.t :=
  match l with
  | [] => [x]
  | y :: l' =>
    if bool_decide (cmp x y ≤ 0)%Z then x :: l else y :: sortInsert cmp x l'
  end.

Fixpoint arraySort (cmp : Course.t → Course.t → Z) (l : list Course.t) : list Course.t :=
  match l with
  | [] => []
  | x :: l' => sortInsert cmp x (arraySort cmp l')
  end.

Definition msgMissingData : string :=
  "Please ensure you have added programs, courses, faculty, and rooms before generating timetable.".
Definition msgNoCourses : string := "No courses found for selected programs.".
Definition msgNoConflicts : string :=
  "Timetable generated successfully without conflicts!".
Definition msgConflicts (n : nat) : string :=
  "Timetable generated with " +:+ pretty n +:+ " conflicts. Please review and resolve.".

(** [this.courses.filter(course => selectedPrograms.includes(course.program))] *)
Definition relevantCourses (this : TimetableGenerator) (selectedPrograms : list string)
    : list Course.t :=
  List.filter (λ course, includes selectedPrograms (Course.program course)) (courses this).

Definition isHigh (c : Constraint.t) : bool :=
  bool_decide (Constraint.severity c = Constraint.high).

(** [generateTimetable], on the catalog that [loadData] has just read. *)
Definition generateTimetable `{!JsRuntime} (this : TimetableGenerator) (clk : nat → Z)
    (selectedPrograms : list string) : GenerationResult.t :=
  if (length (programs this) =? 0)%nat || (length (courses this) =? 0)%nat ||
     (length (faculty this) =? 0)%nat || (length (rooms this) =? 0)%nat
  then GenerationResult.mk [] [] false msgMissingData
  else
    let relevantCourses := relevantCourses this selectedPrograms in
    if (length relevantCourses =? 0)%nat
    then GenerationResult.mk [] [] false msgNoCourses
    else
      let sortedCourses := arraySort compareCourses relevantCourses in
      let timetable := generateEntries this clk 0 sortedCourses in
      let scheduledTimetable := scheduleEntries this timetable in
      let detectedConflicts := detectConflicts scheduledTimetable in
      GenerationResult.mk
        scheduledTimetable
        detectedConflicts
        (length (List.filter isHigh detectedConflicts) =? 0)%nat
        (if (length detectedConflicts =? 0)%nat
         then msgNoConflicts
         else msgConflicts (length detectedConflicts)).

(** ** The weekly grid and the Conflict Detector in the words of the
       specification *)

(** The (day, time label) cell of a session. *)
Definition cellOf (e : TimetableEntry.t) : string * string :=
  (TimeSlot.day (TimetableEntry.timeSlot e), TimeSlot.time (TimetableEntry.timeSlot e)).

Definition cellLabel (cell : string * string) : string := slotKey cell.1 cell.2.

(** The weekly grid of the specification: Monday to Saturday, and on each
    day the eight one-hour labels from 09:00 to 17:00; 48 cells in scan
    order, days outermost, time labels innermost. *)
Definition GRID : list (string * string) :=
  flat_map
    (λ day, (λ timeSlot, (day, timeSlot)) <$>
            ["09:00-10:00"; "10:00-11:00"; "11:00-12:00"; "12:00-13:00";
             "13:00-14:00"; "14:00-15:00"; "15:00-16:00"; "16:00-17:00"])
    ["Monday"; "Tuesday"; "Wednesday"; "Thursday"; "Friday"; "Saturday"].

(** The slot of a session is unset: it has no day or no time label. *)
Definition slotUnset (e : TimetableEntry.t) : Prop :=
  TimeSlot.day (TimetableEntry.timeSlot e) = EmptyString ∨
  TimeSlot.time (TimetableEntry.timeSlot e) = EmptyString.

#[global] Instance slotUnset_dec (e : TimetableEntry.t) : Decision (slotUnset e).
Proof. unfold slotUnset. apply _. Defined.

(** The session [e] holding [cell] for one hour: every other field is the
    field of [e]. *)
Definition inCell (e : TimetableEntry.t) (cell : string * string) : TimetableEntry.t :=
  {| TimetableEntry.id := TimetableEntry.id e;
     TimetableEntry.courseId := TimetableEntry.courseId e;
     TimetableEntry.courseName := TimetableEntry.courseName e;
     TimetableEntry.courseCode := TimetableEntry.courseCode e;
     TimetableEntry.facultyId := TimetableEntry.facultyId e;
     TimetableEntry.facultyName := TimetableEntry.facultyName e;
     TimetableEntry.roomId := TimetableEntry.roomId e;
     TimetableEntry.roomName := TimetableEntry.roomName e;
     TimetableEntry.programId := TimetableEntry.programId e;
     TimetableEntry.programName := TimetableEntry.programName e;
     TimetableEntry.timeSlot :=
       {| TimeSlot.day := cell.1; TimeSlot.time := cell.2; TimeSlot.duration := 1 |};
     TimetableEntry.studentCount := TimetableEntry.studentCount e;
     TimetableEntry.type := TimetableEntry.type e |}.

(** The text that names a cell in a conflict record. *)
Definition cellText (cell : string * string) : string := cell.1 +:+ "-" +:+ cell.2.

(** The three conflict records, written out: the record of a session that
    could not be scheduled cites its course code and name; the records of a
    collision name the faculty member or the room and the place. *)
Definition couldNotBeScheduled (e : TimetableEntry.t) : Constraint.t :=
  {| Constraint.type := Constraint.faculty_conflict;
     Constraint.description :=
       "Course " +:+ TimetableEntry.courseCode e +:+ " (" +:+
       TimetableEntry.courseName e +:+ ") could not be scheduled";
     Constraint.severity := Constraint.high |}.

Definition facultyCollision (place : string) (e : TimetableEntry.t) : Constraint.t :=
  {| Constraint.type := Constraint.faculty_conflict;
     Constraint.description :=
       "Faculty " +:+ TimetableEntry.facultyName e +:+ " has multiple classes at " +:+ place;
     Constraint.severity := Constraint.high |}.

Definition roomCollision (place : string) (e : TimetableEntry.t) : Constraint.t :=
  {| Constraint.type := Constraint.room_conflict;
     Constraint.description :=
       "Room " +:+ TimetableEntry.roomName e +:+ " has multiple classes at " +:+ place;
     Constraint.severity := Constraint.high |}.

(** The distinct values of a list, in order of first appearance. *)
Fixpoint firstOccurrences {K} `{EqDecision K} (l : list K) : list K :=
  match l with
  | [] => []
  | x :: l' => x :: List.filter (λ y, negb (bool_decide (y = x))) (firstOccurrences l')
  end.

Definition sameFaculty (e e' : TimetableEntry.t) : bool :=
  bool_decide (TimetableEntry.facultyId e' = TimetableEntry.facultyId e).
Definition sameRoom (e e' : TimetableEntry.t) : bool :=
  bool_decide (TimetableEntry.roomId e' = TimetableEntry.roomId e).

(** The conflicts of one group, visited in order: a session whose
    faculty id is carried by a session [seen] before it in the group yields
    one faculty conflict, and likewise for its room id. *)
Fixpoint groupCollisions (slot : string) (seen group : list TimetableEntry.t)
    : list Constraint.t :=
  match group with
  | [] => []
  | e :: group' =>
    (if existsb (sameFaculty e) seen then [facultyClash slot e] else []) ++
    (if existsb (sameRoom e) seen then [roomClash slot e] else []) ++
    groupCollisions slot (seen ++ [e]) group'
  end.

(** Rule 1, then rule 2 with the sessions grouped by [keyOf]; groups are
    taken in order of first appearance, each in original order. *)
Definition detectBy {K} `{EqDecision K} (keyOf : TimetableEntry.t → K)
    (label : K → string) (timetable : list TimetableEntry.t) : list Constraint.t :=
  (unscheduledConflict <$> List.filter (λ e, negb (isScheduled e)) timetable) ++
  flat_map
    (λ k, groupCollisions (label k) []
            (List.filter (λ e, isScheduled e && bool_decide (keyOf e = k)) timetable))
    (firstOccurrences (keyOf <$> List.filter isScheduled timetable)).

(** The groups of a list under [keyOf], in order of first appearance. *)
Definition groupsBy {K} `{EqDecision K} (keyOf : TimetableEntry.t → K)
    (l : list TimetableEntry.t) : list (K * list TimetableEntry.t) :=
  (λ k, (k, List.filter (λ e, bool_decide (keyOf e = k)) l)) <$>
  firstOccurrences (keyOf <$> l).

(** The detector in grouping form, groups being the (day, time label)
    cells. *)
Definition detectByCell (timetable : list TimetableEntry.t) : list Constraint.t :=
  detectBy cellOf cellLabel timetable.

(** Rule 2 of the specification on one group, visited in original order:
    the second and every later session that carries a faculty id already
    seen in the group yields one faculty conflict, and likewise one room
    conflict for a room id already seen. *)
Fixpoint ruleTwo (place : string) (seen group : list TimetableEntry.t)
    : list Constraint.t :=
  match group with
  | [] => []
  | e :: group' =>
    (if existsb (sameFaculty e) seen then [facultyCollision place e] else []) ++
    (if existsb (sameRoom e) seen then [roomCollision place e] else []) ++
    ruleTwo place (seen ++ [e]) group'
  end.

(** Rule 1: one record per session with an unset slot; then rule 2 on the
    groups of the scheduled sessions under [keyOf], the groups in order of
    first appearance; rule 3: nothing is merged. *)
Definition rulesBy {K} `{EqDecision K} (keyOf : TimetableEntry.t → K)
    (place : K → string) (timetable : list TimetableEntry.t) : list Constraint.t :=
  (couldNotBeScheduled <$> List.filter (λ e, bool_decide (slotUnset e)) timetable) ++
  flat_map
    (λ k, ruleTwo (place k) []
            (List.filter (λ e, bool_decide (¬ slotUnset e) && bool_decide (keyOf e = k))
                         timetable))
    (firstOccurrences
       (keyOf <$> List.filter (λ e, bool_decide (¬ slotUnset e)) timetable)).

(** The Conflict Detector of the specification: the groups are the
    (day, time label) cells. *)
Definition detectConflicts_spec (timetable : list TimetableEntry.t) : list Constraint.t :=
  rulesBy cellOf cellText timetable.

(** The slot of the session is one of the 48 cells of the grid. *)
Definition onGrid (e : TimetableEntry.t) : Prop := cellOf e ∈ GRID.

(** ** The Slot Assigner in the words of the specification *)

(** The resource tags recorded for a cell key. *)
Definition resourcesAt (occupiedSlots : gmap string (gset string)) (key : string)
    : gset string :=
  default ∅ (occupiedSlots !! key).

(** The test of the scan of [scheduleEntries] at one cell, over the
    recorded tags per key. *)
Definition cellFits (this : TimetableGenerator) (R : string → gset string)
    (e : TimetableEntry.t) (cell : string * string) : bool :=
  negb (bool_decide (facultyTag e ∈ R (cellLabel cell))) &&
  negb (bool_decide (roomTag e ∈ R (cellLabel cell))) &&
  isSlotAvailable this (TimetableEntry.facultyId e) (TimetableEntry.roomId e)
    cell.1 cell.2.

Definition assignCell (e : TimetableEntry.t) (cell : string * string) : TimetableEntry.t :=
  setTimeSlot e (TimeSlot.mk cell.1 cell.2 1).

(** The cells scanned for a list of days, in scan order. *)
Definition cellsOf (days : list string) : list (string * string) :=
  flat_map (λ day, (λ timeSlot, (day, timeSlot)) <$> TIME_SLOTS) days.

(** Neither the faculty id nor the room id of [e] occupies [cell]: no
    session placed [earlier] in that cell carries either. *)
Definition cellFree (earlier : list TimetableEntry.t) (e : TimetableEntry.t)
    (cell : string * string) : bool :=
  forallb (λ o, negb (bool_decide (cellOf o = cell) && (sameFaculty e o || sameRoom e o)))
          earlier.

(** The unavailable-slots lists of the records the ids of a session
    resolve to in the catalog. *)
Definition facultyUnavailable (this : TimetableGenerator) (e : TimetableEntry.t)
    : list string :=
  match find (λ f, bool_decide (Faculty.id f = TimetableEntry.facultyId e)) (faculty this) with
  | Some f => default [] (Faculty.unavailableSlots f)
  | None => []
  end.

Definition roomUnavailable (this : TimetableGenerator) (e : TimetableEntry.t)
    : list string :=
  match find (λ r, bool_decide (Room.id r = TimetableEntry.roomId e)) (rooms this) with
  | Some r => default [] (Room.unavailableSlots r)
  | None => []
  end.

(** The time label is in neither list; the day plays no part. *)
Definition timeFree (this : TimetableGenerator) (e : TimetableEntry.t)
    (timeSlot : string) : bool :=
  bool_decide (timeSlot ∉ facultyUnavailable this e) &&
  bool_decide (timeSlot ∉ roomUnavailable this e).

(** The ids of a session resolve in the catalog. *)
Definition resolves (this : TimetableGenerator) (e : TimetableEntry.t) : Prop :=
  is_Some (find (λ f, bool_decide (Faculty.id f = TimetableEntry.facultyId e)) (faculty this)) ∧
  is_Some (find (λ r, bool_decide (Room.id r = TimetableEntry.roomId e)) (rooms this)).

(** First fit: the first cell of the grid, in scan order, that passes
    [ok]; the session is returned as it came when there is none. *)
Definition placeBy (ok : string * string → bool) (e : TimetableEntry.t) : TimetableEntry.t :=
  match find ok GRID with
  | Some cell => assignCell e cell
  | None => e
  end.

(** The session [e], at position [i] of the input, was placed first fit in
    the output [out]: either it holds the first cell of the grid, in scan
    order, that is free of its faculty id and of its room id among the
    sessions placed before it and whose time label is in neither of the two
    unavailable-slots lists; or no cell of the grid passes that test and the
    session is in the output as it came. *)
Definition firstFitAt (this : TimetableGenerator) (out : list TimetableEntry.t)
    (i : nat) (e : TimetableEntry.t) : Prop :=
  let ok := λ cell : string * string,
              cellFree (take i out) e cell && timeFree this e cell.2 in
  (∃ k cell, GRID !! k = Some cell ∧ ok cell = true ∧
             (∀ j c, j < k → GRID !! j = Some c → ok c = false) ∧
             out !! i = Some (inCell e cell)) ∨
  ((∀ cell, cell ∈ GRID → ok cell = false) ∧ out !! i = Some e).

(** The tags recorded after [e] was placed in [cell]. *)
Definition occupy (e : TimetableEntry.t) (R : string → gset string)
    (cell : option (string * string)) (key : string) : gset string :=
  match cell with
  | Some cell =>
    if bool_decide (key = cellLabel cell)
    then {[roomTag e]} ∪ ({[facultyTag e]} ∪ R key)
    else R key
  | None => R key
  end.

(** The tags of the sessions of [placed] that were given the cell [key]. *)
Fixpoint tagsAt (placed : list TimetableEntry.t) (key : string) : gset string :=
  match placed with
  | [] => ∅
  | o :: placed' =>
    (if isScheduled o && bool_decide (entryKey o = key)
     then {[roomTag o]} ∪ {[facultyTag o]} else ∅) ∪ tagsAt placed' key
  end.

(** The availability test over the sessions [placed] so far. *)
Definition fitsAfter (this : TimetableGenerator) (placed : list TimetableEntry.t)
    (e : TimetableEntry.t) (cell : string * string) : bool :=
  cellFree placed e cell &&
  isSlotAvailable this (TimetableEntry.facultyId e) (TimetableEntry.roomId e) cell.1 cell.2.

(** No two sessions that share a cell share a faculty id or a room id. *)
Definition noDoubleBooking (timetable : list TimetableEntry.t) : Prop :=
  ∀ i j a b, i < j → timetable !! i = Some a → timetable !! j = Some b →
    isScheduled a = true → isScheduled b = true → cellOf a = cellOf b →
    TimetableEntry.facultyId a ≠ TimetableEntry.facultyId b ∧
    TimetableEntry.roomId a ≠ TimetableEntry.roomId b.

(** ** The Session Expander in the words of the specification *)

(** The kind-appropriate room categories. *)
Definition kindAppropriate (ty : SessionType) (room : Room.t) : Prop :=
  match ty with
  | theory => Room.type room = "Classroom" ∨ Room.type room = "Seminar Hall"
  | practical => Room.type room = "Laboratory" ∨ Room.type room = "Computer Lab"
  end.

(** The headcount table, keyed by program category; 30 for a category it
    does not list. *)
Definition headcountOf (category : string) : Z :=
  default 30%Z
    (snd <$> find (λ row : string * Z, bool_decide (category = row.1))
                  [("B.Ed", 40%Z); ("M.Ed", 30%Z); ("FYUP", 60%Z); ("ITEP", 35%Z)]).

(** The session record of a course, field by field: the back references to
    the course, the faculty member, the room and the program, the empty slot
    of one hour, the headcount of the program category and the kind. *)
Definition sessionRecord (course : Course.t) (program : Program.t) (ty : SessionType)
    (f : Faculty.t) (r : Room.t) (identifier : string) : TimetableEntry.t :=
  {| TimetableEntry.id := identifier;
     TimetableEntry.courseId := Course.id course;
     TimetableEntry.courseName := Course.name course;
     TimetableEntry.courseCode := Course.code course;
     TimetableEntry.facultyId := Faculty.id f;
     TimetableEntry.facultyName := Faculty.name f;
     TimetableEntry.roomId := Room.id r;
     TimetableEntry.roomName := Room.name r;
     TimetableEntry.programId := Program.id program;
     TimetableEntry.programName := Program.name program;
     TimetableEntry.timeSlot :=
       {| TimeSlot.day := EmptyString; TimeSlot.time := EmptyString;
          TimeSlot.duration := 1 |};
     TimetableEntry.studentCount := headcountOf (Program.type program);
     TimetableEntry.type := ty |}.

Definition setId (e : TimetableEntry.t) (newId : string) : TimetableEntry.t :=
  TimetableEntry.mk newId
    (TimetableEntry.courseId e) (TimetableEntry.courseName e)
    (TimetableEntry.courseCode e)
    (TimetableEntry.facultyId e) (TimetableEntry.facultyName e)
    (TimetableEntry.roomId e) (TimetableEntry.roomName e)
    (TimetableEntry.programId e) (TimetableEntry.programName e)
    (TimetableEntry.timeSlot e) (TimetableEntry.studentCount e)
    (TimetableEntry.type e).

(** A session with its identifier blanked: what two runs are compared on. *)
Definition eraseId (e : TimetableEntry.t) : TimetableEntry.t := setId e EmptyString.

(** A batch whose sessions are identical except for the ordinal in the
    identifier: one template, and identifiers that differ in the decimal
    ordinal alone. *)
Definition identicalUpToOrdinal (batch : list TimetableEntry.t) : Prop :=
  ∃ (template : TimetableEntry.t) (pre post : string),
    batch = (λ i : nat, setId template (pre +:+ pretty i +:+ post)) <$> seq 0 (length batch).

(** ** The generation call in the words of the specification *)

(** The input passes the two guards of [generateTimetable]. *)
Definition inputSufficient (this : TimetableGenerator) (selectedPrograms : list string)
    : Prop :=
  programs this ≠ [] ∧ courses this ≠ [] ∧ faculty this ≠ [] ∧ rooms this ≠ [] ∧
  relevantCourses this selectedPrograms ≠ [].

Definition noHighConflict (conflicts : list Constraint.t) : Prop :=
  Forall (λ c, Constraint.severity c ≠ Constraint.high) conflicts.

(** A record of severity high and of one of the two resource kinds. *)
Definition highResourceConflict (c : Constraint.t) : Prop :=
  Constraint.severity c = Constraint.high ∧
  (Constraint.type c = Constraint.faculty_conflict ∨
   Constraint.type c = Constraint.room_conflict).

(** ** Sample catalogs *)

Definition sampleProgram : Program.t := Program.mk "p1" "B.Ed Elementary" "B.Ed".

(** Two theory hours, no practical hour. *)
Definition sampleCourse : Course.t :=
  Course.mk "c1" "Algebra" "MA101" "p1" false 1 2 0 "Introductory algebra".

(** The faculty member is away from 09:00 to 10:00, whatever the day. *)
Definition sampleFaculty : Faculty.t :=
  Faculty.mk "f1" "Ann" ["p1"] ["algebra"] (Some ["09:00-10:00"]).

Definition sampleRoom : Room.t := Room.mk "r1" "Room 101" "Classroom" None.

Definition sampleCatalog : TimetableGenerator :=
  {| programs := [sampleProgram]; courses := [sampleCourse];
     faculty := [sampleFaculty]; rooms := [sampleRoom] |}.

Definition emptyCatalog : TimetableGenerator :=
  {| programs := []; courses := []; faculty := []; rooms := [] |}.

(** A course of a program that is not in the catalog. *)
Definition orphanCourse : Course.t :=
  Course.mk "c9" "Drama" "DR101" "p9" true 2 1 1 "Stage practice".

Definition orphanCatalog : TimetableGenerator :=
  {| programs := [sampleProgram]; courses := [orphanCourse];
     faculty := [sampleFaculty]; rooms := [sampleRoom] |}.

(** A clock that advances by one millisecond between two readings. *)
Definition tickingClock (n : nat) : Z := 1000 + Z.of_nat n.

(** The two sessions the expander makes of [sampleCourse] under
    [tickingClock]. *)
Definition sampleEntries : list TimetableEntry.t :=
  [newEntry sampleCourse sampleProgram theory sampleFaculty sampleRoom 0 1000;
   newEntry sampleCourse sampleProgram theory sampleFaculty sampleRoom 1 1001].

(** Three sessions booked into one cell with one faculty member and one
    room, and a fourth left unscheduled. *)
Definition clashingTimetable : list TimetableEntry.t :=
  [assignCell (newEntry sampleCourse sampleProgram theory sampleFaculty sampleRoom 0 1000)
     ("Monday", "10:00-11:00");
   assignCell (newEntry sampleCourse sampleProgram theory sampleFaculty sampleRoom 1 1000)
     ("Monday", "10:00-11:00");
   newEntry sampleCourse sampleProgram theory sampleFaculty sampleRoom 2 1000;
   assignCell (newEntry sampleCourse sampleProgram theory sampleFaculty sampleRoom 3 1000)
     ("Monday", "10:00-11:00")].

(** The catalogs of scenarios A, B and C of the specification: a faculty
    member and a classroom without unavailable slots, and a course of two
    theory hours (A), two courses of one theory hour (B), a course of 49
    theory hours (C). *)
Definition freeFaculty : Faculty.t := Faculty.mk "f1" "Ann" ["p1"] ["algebra"] (Some []).

Definition scenarioA : TimetableGenerator :=
  {| programs := [sampleProgram]; courses := [sampleCourse];
     faculty := [freeFaculty]; rooms := [sampleRoom] |}.

Definition scenarioB : TimetableGenerator :=
  {| programs := [sampleProgram];
     courses := [Course.mk "c1" "Algebra" "MA101" "p1" false 1 1 0 "Introductory algebra";
                 Course.mk "c2" "Geometry" "MA102" "p1" false 1 1 0 "Plane geometry"];
     faculty := [freeFaculty]; rooms := [sampleRoom] |}.

Definition scenarioC : TimetableGenerator :=
  {| programs := [sampleProgram];
     courses := [Course.mk "c1" "Algebra" "MA101" "p1" false 1 49 0 "Introductory algebra"];
     faculty := [freeFaculty]; rooms := [sampleRoom] |}.

(** Closes a decidable goal by evaluation. *)
Ltac by_computation := apply (bool_decide_unpack _); vm_compute; exact I.

(** * Properties *)

(** ** Lists *)

Lemma firstOccurrences_elem {K} `{EqDecision K} (l : list K) (x : K) :
  x ∈ firstOccurrences l ↔ x ∈ l.
Proof.
  induction l as [|y l IH]; simpl; [done|].
  rewrite !elem_of_cons, list_elem_of_In, filter_In, <- list_elem_of_In, IH.
  rewrite negb_true_iff, bool_decide_eq_false.
  destruct (decide (x = y)); intuition congruence.
Qed.

Lemma NoDup_List_filter {A} (f : A → bool) (l : list A) :
  NoDup l → NoDup (List.filter f l).
Proof.
  induction 1 as [|x l Hx Hl IH]; simpl; [constructor|].
  destruct (f x); [|done].
  constructor; [|done].
  rewrite list_elem_of_In, filter_In, <- list_elem_of_In. tauto.
Qed.

Lemma firstOccurrences_NoDup {K} `{EqDecision K} (l : list K) :
  NoDup (firstOccurrences l).
Proof.
  induction l as [|y l IH]; simpl; constructor.
  - rewrite list_elem_of_In, filter_In, negb_true_iff, bool_decide_eq_false. tauto.
  - by apply NoDup_List_filter.
Qed.

Lemma List_filter_all {A} (f : A → bool) (l : list A) :
  (∀ x, x ∈ l → f x = true) → List.filter f l = l.
Proof.
  induction l as [|y l IH]; simpl; intros Hall; [done|].
  rewrite (Hall y) by left. f_equal. apply IH. intros x Hx. apply Hall. by right.
Qed.

Lemma List_filter_none {A} (f : A → bool) (l : list A) :
  (∀ x, x ∈ l → f x = false) → List.filter f l = [].
Proof.
  induction l as [|y l IH]; simpl; intros Hall; [done|].
  rewrite (Hall y) by left. apply IH. intros x Hx. apply Hall. by right.
Qed.

Lemma firstOccurrences_snoc {K} `{EqDecision K} (l : list K) (x : K) :
  firstOccurrences (l ++ [x]) =
  if bool_decide (x ∈ l) then firstOccurrences l else firstOccurrences l ++ [x].
Proof.
  induction l as [|y l IH]; simpl; [done|].
  rewrite IH. destruct (decide (x = y)) as [->|Hne].
  - rewrite (bool_decide_eq_true_2 (y ∈ y :: l)) by left.
    case_bool_decide; [done|].
    rewrite List.filter_app. simpl.
    rewrite (bool_decide_eq_true_2 (y = y)) by done. simpl.
    by rewrite app_nil_r.
  - case_bool_decide as Hin.
    + by rewrite (bool_decide_eq_true_2 (x ∈ y :: l)) by by right.
    + rewrite (bool_decide_eq_false_2 (x ∈ y :: l)).
      * rewrite List.filter_app. simpl.
        by rewrite (bool_decide_eq_false_2 (x = y)) by done.
      * rewrite elem_of_cons. tauto.
Qed.

(** ** The grouping pass of the detector *)

Lemma slotMap_get_fmap (F : string → list TimetableEntry.t) (ks : list string) (k : string) :
  slotMap_get k ((λ k', (k', F k')) <$> ks) =
  if bool_decide (k ∈ ks) then Some (F k) else None.
Proof.
  unfold slotMap_get. induction ks as [|k' ks IH]; [done|].
  rewrite fmap_cons. cbn [find fst].
  destruct (decide (k' = k)) as [->|Hne].
  - rewrite (bool_decide_eq_true_2 (k = k)) by done.
    by rewrite (bool_decide_eq_true_2 (k ∈ k :: ks)) by left.
  - rewrite (bool_decide_eq_false_2 (k' = k)) by done. rewrite IH.
    destruct (decide (k ∈ ks)) as [Hin|Hin].
    + rewrite !bool_decide_eq_true_2; [done|by right|done].
    + rewrite !bool_decide_eq_false_2; [done| |done].
      rewrite elem_of_cons. intros [->|?]; tauto.
Qed.

Lemma slotMap_set_fmap_in (F : string → list TimetableEntry.t) (ks : list string)
    (k : string) (v : list TimetableEntry.t) :
  NoDup ks → k ∈ ks →
  slotMap_set k v ((λ k', (k', F k')) <$> ks) =
  (λ k', (k', if bool_decide (k' = k) then v else F k')) <$> ks.
Proof.
  induction 1 as [|k' ks Hk' Hnd IH]; simpl; intros Hin; [by apply elem_of_nil in Hin|].
  case_bool_decide as Hk.
  - subst k'. f_equal. apply list_fmap_ext. intros i x Hx.
    rewrite bool_decide_eq_false_2; [done|].
    intros ->. apply Hk'. by eapply list_elem_of_lookup_2.
  - f_equal. apply IH. apply elem_of_cons in Hin as [->|?]; tauto.
Qed.

Lemma slotMap_set_last (m : SlotMap) (k : string) (v w : list TimetableEntry.t) :
  slotMap_get k m = None →
  slotMap_set k w (slotMap_set k v m) = m ++ [(k, w)] ∧
  slotMap_get k (slotMap_set k v m) = Some v.
Proof.
  unfold slotMap_get. induction m as [|[k' u] m IH]; simpl.
  - intros _. by rewrite !bool_decide_eq_true_2 by done.
  - case_bool_decide as Hk; simpl; [done|]. intros Hget.
    rewrite bool_decide_eq_false_2 by done. simpl.
    destruct (IH Hget) as [-> ->]. done.
Qed.

(** The groups of a list of scheduled sessions under [entryKey]. *)
Lemma groupEntry_step (l : list TimetableEntry.t) (c : list Constraint.t)
    (e : TimetableEntry.t) :
  isScheduled e = true →
  groupEntry (groupsBy entryKey l, c) e = (groupsBy entryKey (l ++ [e]), c).
Proof.
  intros He. unfold groupEntry, groupsBy. rewrite He.
  rewrite fmap_app. change (entryKey <$> [e]) with [entryKey e].
  rewrite firstOccurrences_snoc.
  set (F := λ k, List.filter (λ e', bool_decide (entryKey e' = k)) l).
  set (ks := firstOccurrences (entryKey <$> l)).
  assert (Hks : ∀ k, k ∈ ks ↔ k ∈ entryKey <$> l) by apply firstOccurrences_elem.
  rewrite (slotMap_get_fmap F).
  f_equal.
  destruct (decide (entryKey e ∈ ks)) as [Hin|Hin].
  - rewrite (bool_decide_eq_true_2 _ Hin), (slotMap_get_fmap F).
    rewrite (bool_decide_eq_true_2 _ Hin). simpl.
    rewrite (bool_decide_eq_true_2 (entryKey e ∈ entryKey <$> l)) by by apply Hks.
    rewrite (slotMap_set_fmap_in F) by (done || apply firstOccurrences_NoDup).
    apply list_fmap_ext. intros i k Hk. f_equal.
    rewrite List.filter_app. simpl. unfold F.
    case_bool_decide as Hek.
    + subst k. by rewrite bool_decide_eq_true_2.
    + rewrite bool_decide_eq_false_2 by congruence. by rewrite app_nil_r.
  - rewrite (bool_decide_eq_false_2 _ Hin).
    rewrite (bool_decide_eq_false_2 (entryKey e ∈ entryKey <$> l)) by by rewrite <- Hks.
    destruct (slotMap_set_last ((λ k', (k', F k')) <$> ks) (entryKey e) [] [e]) as [Hset Hget].
    { rewrite (slotMap_get_fmap F). by rewrite bool_decide_eq_false_2. }
    unfold F in Hset, Hget. cbv beta in Hset, Hget.
    rewrite Hget. simpl. rewrite Hset. rewrite fmap_app. simpl.
    f_equal.
    + apply list_fmap_ext. intros i k Hk. f_equal.
      rewrite List.filter_app. simpl.
      rewrite bool_decide_eq_false_2; [by rewrite app_nil_r|].
      intros <-. apply Hin. by eapply list_elem_of_lookup_2.
    + f_equal. f_equal. rewrite List.filter_app. simpl.
      rewrite (bool_decide_eq_true_2 (entryKey e = entryKey e)) by done.
      rewrite List_filter_none; [done|].
      intros x Hx. apply bool_decide_eq_false. intros Heq.
      apply Hin, Hks. rewrite <- Heq. by apply list_elem_of_fmap_2.
Qed.

Lemma groupEntry_fold (l tt : list TimetableEntry.t) (c : list Constraint.t) :
  Forall (λ e, isScheduled e = true) l →
  fold_left groupEntry tt (groupsBy entryKey l, c) =
  (groupsBy entryKey (l ++ List.filter isScheduled tt),
   c ++ (unscheduledConflict <$> List.filter (λ e, negb (isScheduled e)) tt)).
Proof.
  revert l c. induction tt as [|e tt IH]; intros l c Hl.
  - simpl. by rewrite !app_nil_r.
  - cbn [fold_left List.filter]. destruct (isScheduled e) eqn:He; cbn [negb].
    + rewrite groupEntry_step by done. rewrite IH.
      * by rewrite <- app_assoc.
      * apply Forall_app. split; [done|]. by constructor.
    + unfold groupEntry at 2. rewrite He. rewrite IH by done.
      rewrite fmap_cons. by rewrite <- app_assoc.
Qed.

(** ** The checking pass of the detector *)

Lemma existsb_sameFaculty (e : TimetableEntry.t) (seen : list TimetableEntry.t) :
  existsb (sameFaculty e) seen =
  bool_decide (TimetableEntry.facultyId e ∈ TimetableEntry.facultyId <$> seen).
Proof.
  induction seen as [|e' seen IH]; [done|].
  rewrite fmap_cons. cbn [existsb]. rewrite IH. unfold sameFaculty.
  destruct (decide (TimetableEntry.facultyId e' = TimetableEntry.facultyId e)) as [Heq|Hne].
  - rewrite (bool_decide_eq_true_2 _ Heq). simpl. symmetry.
    apply bool_decide_eq_true_2. rewrite Heq. by left.
  - rewrite (bool_decide_eq_false_2 _ Hne). simpl.
    apply bool_decide_ext. rewrite elem_of_cons. intuition congruence.
Qed.

Lemma existsb_sameRoom (e : TimetableEntry.t) (seen : list TimetableEntry.t) :
  existsb (sameRoom e) seen =
  bool_decide (TimetableEntry.roomId e ∈ TimetableEntry.roomId <$> seen).
Proof.
  induction seen as [|e' seen IH]; [done|].
  rewrite fmap_cons. cbn [existsb]. rewrite IH. unfold sameRoom.
  destruct (decide (TimetableEntry.roomId e' = TimetableEntry.roomId e)) as [Heq|Hne].
  - rewrite (bool_decide_eq_true_2 _ Heq). simpl. symmetry.
    apply bool_decide_eq_true_2. rewrite Heq. by left.
  - rewrite (bool_decide_eq_false_2 _ Hne). simpl.
    apply bool_decide_ext. rewrite elem_of_cons. intuition congruence.
Qed.

Lemma checkEntry_fold (slot : string) (group seen : list TimetableEntry.t)
    (facultyIds roomIds : gset string) (c : list Constraint.t) :
  (∀ x, x ∈ facultyIds ↔ x ∈ TimetableEntry.facultyId <$> seen) →
  (∀ x, x ∈ roomIds ↔ x ∈ TimetableEntry.roomId <$> seen) →
  (fold_left (checkEntry slot) group (facultyIds, roomIds, c)).2 =
  c ++ groupCollisions slot seen group.
Proof.
  revert seen facultyIds roomIds c.
  induction group as [|e group IH]; intros seen fs rs c Hfs Hrs.
  - simpl. by rewrite app_nil_r.
  - cbn [fold_left groupCollisions]. unfold checkEntry at 2.
    rewrite (IH (seen ++ [e])).
    + rewrite existsb_sameFaculty, existsb_sameRoom.
      rewrite (bool_decide_ext _ _ (Hfs (TimetableEntry.facultyId e))).
      rewrite (bool_decide_ext _ _ (Hrs (TimetableEntry.roomId e))).
      repeat case_bool_decide; simpl; by rewrite <- ?app_assoc.
    + intros x. rewrite fmap_app, elem_of_app, elem_of_union, elem_of_singleton, Hfs.
      simpl. rewrite list_elem_of_singleton. tauto.
    + intros x. rewrite fmap_app, elem_of_app, elem_of_union, elem_of_singleton, Hrs.
      simpl. rewrite list_elem_of_singleton. tauto.
Qed.

Lemma checkSlot_fold (m : SlotMap) (c : list Constraint.t) :
  fold_left checkSlot m c = c ++ flat_map (λ kv, groupCollisions kv.1 [] kv.2) m.
Proof.
  revert c. induction m as [|[slot g] m IH]; intros c.
  - simpl. by rewrite app_nil_r.
  - cbn [fold_left flat_map]. rewrite IH. unfold checkSlot.
    rewrite (checkEntry_fold slot g []); [by rewrite <- app_assoc| |];
      intros x; rewrite fmap_nil; set_solver.
Qed.

Lemma flat_map_fmap {A B C} (f : B → list C) (g : A → B) (l : list A) :
  flat_map f (g <$> l) = flat_map (λ x, f (g x)) l.
Proof. induction l as [|x l IH]; [done|]. rewrite fmap_cons. simpl. by rewrite IH. Qed.

Lemma List_filter_filter {A} (f g : A → bool) (l : list A) :
  List.filter g (List.filter f l) = List.filter (λ x, f x && g x) l.
Proof.
  induction l as [|x l IH]; [done|]. simpl.
  destruct (f x); simpl; [destruct (g x)|]; by rewrite IH.
Qed.

(** The detector groups by the key string of the slot. *)
Lemma detectConflicts_by_key (timetable : list TimetableEntry.t) :
  detectConflicts timetable = detectBy entryKey (λ k, k) timetable.
Proof.
  unfold detectConflicts, detectBy.
  change (@nil (string * list TimetableEntry.t)) with (groupsBy entryKey []).
  rewrite groupEntry_fold by constructor.
  rewrite checkSlot_fold. simpl. f_equal.
  unfold groupsBy. rewrite flat_map_fmap. simpl.
  apply flat_map_ext. intros k. by rewrite List_filter_filter.
Qed.

(** ** From key strings to cells *)

Lemma List_filter_fmap {A B} (f : A → B) (p : B → bool) (l : list A) :
  List.filter p (f <$> l) = f <$> List.filter (λ x, p (f x)) l.
Proof.
  induction l as [|x l IH]; [done|]. rewrite fmap_cons. simpl.
  destruct (p (f x)); by rewrite IH.
Qed.

Lemma List_filter_ext_elem {A} (f g : A → bool) (l : list A) :
  (∀ x, x ∈ l → f x = g x) → List.filter f l = List.filter g l.
Proof.
  intros H. apply filter_ext_in. intros x Hx. apply H. by apply list_elem_of_In.
Qed.

Lemma flat_map_ext_elem {A B} (f g : A → list B) (l : list A) :
  (∀ x, x ∈ l → f x = g x) → flat_map f l = flat_map g l.
Proof.
  induction l as [|x l IH]; intros H; [done|]. simpl.
  rewrite (H x) by left. f_equal. apply IH. intros y Hy. apply H. by right.
Qed.

Lemma firstOccurrences_fmap_inj {A B} `{EqDecision A} `{EqDecision B}
    (f : A → B) (l : list A) :
  (∀ x y, x ∈ l → y ∈ l → f x = f y → x = y) →
  firstOccurrences (f <$> l) = f <$> firstOccurrences l.
Proof.
  induction l as [|x l IH]; intros Hinj; [done|].
  rewrite fmap_cons. cbn [firstOccurrences]. rewrite fmap_cons. f_equal.
  rewrite IH by (intros y z Hy Hz; apply Hinj; by right).
  rewrite List_filter_fmap. f_equal.
  apply List_filter_ext_elem. intros y Hy. f_equal.
  rewrite firstOccurrences_elem in Hy.
  apply bool_decide_ext. split; [|congruence].
  apply Hinj; [by right|by left].
Qed.

Lemma detectBy_cells (timetable : list TimetableEntry.t) :
  (∀ a b, a ∈ timetable → b ∈ timetable →
          isScheduled a = true → isScheduled b = true →
          entryKey a = entryKey b → cellOf a = cellOf b) →
  detectBy entryKey (λ k, k) timetable = detectByCell timetable.
Proof.
  intros Hinj. unfold detectByCell, detectBy. f_equal.
  change entryKey with (λ e, cellLabel (cellOf e)).
  rewrite (list_fmap_compose cellOf cellLabel).
  rewrite firstOccurrences_fmap_inj.
  - rewrite flat_map_fmap. apply flat_map_ext_elem. intros k Hk. f_equal.
    rewrite firstOccurrences_elem in Hk. apply list_elem_of_fmap in Hk as (a & -> & Ha).
    apply list_elem_of_In, filter_In in Ha as [Ha Hsa]. apply list_elem_of_In in Ha.
    apply List_filter_ext_elem. intros e He.
    destruct (isScheduled e) eqn:Hse; [simpl|done].
    apply bool_decide_ext. split; [|congruence]. by apply Hinj.
  - intros x y (a & -> & Ha)%list_elem_of_fmap (b & -> & Hb)%list_elem_of_fmap.
    apply list_elem_of_In, filter_In in Ha as [Ha Hsa].
    apply list_elem_of_In, filter_In in Hb as [Hb Hsb].
    apply Hinj; by rewrite ?list_elem_of_In.
Qed.

(** ** The grid *)

(** The scan order: cell number [8 * d + t] is time label [t] of day [d]. *)
Lemma GRID_scan_order (d t : nat) (day timeSlot : string) :
  WEEKDAYS !! d = Some day → TIME_SLOTS !! t = Some timeSlot →
  GRID !! (8 * d + t)%nat = Some (day, timeSlot).
Proof.
  intros Hd Ht.
  assert (d < 6)%nat by (apply lookup_lt_Some in Hd; simpl in Hd; lia).
  assert (t < 8)%nat by (apply lookup_lt_Some in Ht; simpl in Ht; lia).
  do 6 (destruct d as [|d]; [do 8 (destruct t as [|t]; [by simplify_eq/=|]); lia|]); lia.
Qed.

Lemma grid_labels_distinct (c1 c2 : string * string) :
  c1 ∈ GRID → c2 ∈ GRID → cellLabel c1 = cellLabel c2 → c1 = c2.
Proof.
  assert (H : Forall (λ a, Forall (λ b, cellLabel a = cellLabel b → a = b) GRID) GRID).
  { apply (bool_decide_unpack _). by vm_compute. }
  intros H1 H2. rewrite Forall_forall in H. specialize (H c1 H1).
  rewrite Forall_forall in H. by apply H.
Qed.

Lemma grid_scheduled (e : TimetableEntry.t) : onGrid e → isScheduled e = true.
Proof.
  assert (H : Forall (λ c : string * string, c.1 ≠ EmptyString ∧ c.2 ≠ EmptyString) GRID).
  { apply (bool_decide_unpack _). by vm_compute. }
  intros He. rewrite Forall_forall in H. destruct (H _ He) as [Hd Ht].
  unfold isScheduled. simpl in Hd, Ht.
  by rewrite !bool_decide_eq_false_2.
Qed.

Lemma detectConflicts_on_grid (timetable : list TimetableEntry.t) :
  Forall (λ e, isScheduled e = false ∨ onGrid e) timetable →
  detectConflicts timetable = detectByCell timetable.
Proof.
  intros Hwf. rewrite detectConflicts_by_key. apply detectBy_cells.
  rewrite Forall_forall in Hwf.
  intros a b Ha Hb Hsa Hsb Hkey.
  destruct (Hwf a Ha) as [?|Hga]; [congruence|].
  destruct (Hwf b Hb) as [?|Hgb]; [congruence|].
  by apply grid_labels_distinct.
Qed.

(** The code's test for a scheduled session is the negation of "the slot
    is unset", and its three record literals are the records of the
    specification. *)
Lemma slotUnset_isScheduled (e : TimetableEntry.t) :
  slotUnset e ↔ isScheduled e = false.
Proof.
  unfold slotUnset, isScheduled.
  rewrite andb_false_iff, !negb_false_iff, !bool_decide_eq_true. done.
Qed.

Lemma bool_decide_slotUnset (e : TimetableEntry.t) :
  bool_decide (slotUnset e) = negb (isScheduled e).
Proof.
  destruct (isScheduled e) eqn:Hs; simpl.
  - apply bool_decide_eq_false_2. rewrite slotUnset_isScheduled. congruence.
  - apply bool_decide_eq_true_2. by apply slotUnset_isScheduled.
Qed.

Lemma bool_decide_not_slotUnset (e : TimetableEntry.t) :
  bool_decide (¬ slotUnset e) = isScheduled e.
Proof.
  destruct (isScheduled e) eqn:Hs.
  - apply bool_decide_eq_true_2. rewrite slotUnset_isScheduled. congruence.
  - apply bool_decide_eq_false_2. intros Hno. by apply Hno, slotUnset_isScheduled.
Qed.

Lemma ruleTwo_groupCollisions (place : string) (seen group : list TimetableEntry.t) :
  ruleTwo place seen group = groupCollisions place seen group.
Proof.
  revert seen. induction group as [|e group IH]; intros seen; [done|].
  cbn [ruleTwo groupCollisions]. by rewrite IH.
Qed.

Lemma rulesBy_detectBy {K} `{EqDecision K} (keyOf : TimetableEntry.t → K)
    (place : K → string) (timetable : list TimetableEntry.t) :
  rulesBy keyOf place timetable = detectBy keyOf place timetable.
Proof.
  unfold rulesBy, detectBy.
  rewrite (List_filter_ext_elem (λ e, bool_decide (slotUnset e)) (λ e, negb (isScheduled e)))
    by (intros e _; apply bool_decide_slotUnset).
  rewrite (List_filter_ext_elem (λ e, bool_decide (¬ slotUnset e)) isScheduled)
    by (intros e _; apply bool_decide_not_slotUnset).
  f_equal. apply flat_map_ext_elem. intros k _. rewrite ruleTwo_groupCollisions. f_equal.
  apply List_filter_ext_elem. intros e _. by rewrite bool_decide_not_slotUnset.
Qed.

Lemma detectConflicts_rules_on_grid (timetable : list TimetableEntry.t) :
  Forall (λ e, slotUnset e ∨ onGrid e) timetable →
  detectConflicts timetable = detectConflicts_spec timetable.
Proof.
  intros Hwf. unfold detectConflicts_spec. rewrite rulesBy_detectBy.
  apply detectConflicts_on_grid. eapply Forall_impl; [exact Hwf|].
  intros e [He|He]; [left; by apply slotUnset_isScheduled|by right].
Qed.

(** C6. For every session list, the Conflict Detector returns first one
    high-severity conflict per session with an unset slot, citing course code
    and name; then, for the scheduled sessions grouped under the text
    [day-time] of their slot and visited in original order, one high-severity
    faculty conflict for each session whose faculty id was already seen in
    its group and one high-severity room conflict for each session whose room
    id was already seen, nothing being merged.  When every slot is unset or a
    cell of the weekly grid, which is what the Slot Assigner returns, the
    groups are the (day, time label) cells: the detector is the detector of
    the specification.  The records are those written out in
    [couldNotBeScheduled], [facultyCollision] and [roomCollision]. *)
Theorem detectConflicts_refines_spec (timetable : list TimetableEntry.t) :
  detectConflicts timetable =
    rulesBy (λ e, TimeSlot.day (TimetableEntry.timeSlot e) +:+ "-" +:+
                  TimeSlot.time (TimetableEntry.timeSlot e))
            (λ text, text) timetable ∧
  (Forall (λ e, slotUnset e ∨ onGrid e) timetable →
   detectConflicts timetable = detectConflicts_spec timetable).
Proof.
  split; [|apply detectConflicts_rules_on_grid].
  rewrite rulesBy_detectBy. apply detectConflicts_by_key.
Qed.

(** ** The scan of the Slot Assigner *)

Lemma resourcesAt_touch (occ : gmap string (gset string)) (k key : string) :
  resourcesAt
    match occ !! k with None => <[k := ∅]> occ | Some _ => occ end key =
  resourcesAt occ key.
Proof.
  unfold resourcesAt. destruct (occ !! k) eqn:Hk; [done|].
  destruct (decide (k = key)) as [->|Hne].
  - by rewrite lookup_insert_eq, Hk.
  - by rewrite lookup_insert_ne.
Qed.

Lemma resourcesAt_insert (occ : gmap string (gset string)) (k key : string)
    (S : gset string) :
  resourcesAt (<[k := S]> occ) key =
  if bool_decide (key = k) then S else resourcesAt occ key.
Proof.
  unfold resourcesAt. case_bool_decide as Hk.
  - subst. by rewrite lookup_insert_eq.
  - by rewrite lookup_insert_ne.
Qed.

Lemma find_app_split {A} (f : A → bool) (l1 l2 : list A) :
  find f (l1 ++ l2) = match find f l1 with Some x => Some x | None => find f l2 end.
Proof. induction l1 as [|x l1 IH]; [done|]. simpl. by destruct (f x). Qed.

Lemma tryTimeSlots_cons (this : TimetableGenerator) (e : TimetableEntry.t)
    (day t : string) (rest : list string) (occ : gmap string (gset string)) :
  tryTimeSlots this e day (t :: rest) occ =
  let occ1 := match occ !! slotKey day t with
              | None => <[slotKey day t := ∅]> occ
              | Some _ => occ
              end in
  if cellFits this (resourcesAt occ1) e (day, t)
  then (<[slotKey day t :=
            {[roomTag e]} ∪ ({[facultyTag e]} ∪ resourcesAt occ1 (slotKey day t))]> occ1,
        Some (assignCell e (day, t)))
  else tryTimeSlots this e day rest occ1.
Proof. reflexivity. Qed.

Lemma cellFits_ext (this : TimetableGenerator) (R1 R2 : string → gset string)
    (e : TimetableEntry.t) (cell : string * string) :
  (∀ key, R1 key = R2 key) → cellFits this R1 e cell = cellFits this R2 e cell.
Proof. intros H. unfold cellFits. by rewrite H. Qed.

Lemma tryTimeSlots_spec (this : TimetableGenerator) (e : TimetableEntry.t)
    (day : string) (timeSlots : list string) (occ : gmap string (gset string))
    (R : string → gset string) :
  (∀ key, resourcesAt occ key = R key) →
  let found := find (cellFits this R e) ((λ t, (day, t)) <$> timeSlots) in
  ∃ occ', tryTimeSlots this e day timeSlots occ = (occ', assignCell e <$> found) ∧
          ∀ key, resourcesAt occ' key = occupy e R found key.
Proof.
  revert occ. induction timeSlots as [|t rest IH]; intros occ HR found.
  - exists occ. by split.
  - subst found. rewrite fmap_cons, tryTimeSlots_cons. cbn [find]. cbv zeta.
    set (occ1 := match occ !! slotKey day t with
                 | None => <[slotKey day t := ∅]> occ
                 | Some _ => occ
                 end).
    assert (HR1 : ∀ key, resourcesAt occ1 key = R key).
    { intros key. unfold occ1. by rewrite resourcesAt_touch. }
    rewrite (cellFits_ext this _ R) by done.
    destruct (cellFits this R e (day, t)) eqn:Hfit.
    + eexists. split; [done|]. intros key. rewrite resourcesAt_insert.
      unfold occupy, cellLabel. cbn [fst snd].
      case_bool_decide; [subst|]; by rewrite <- ?HR1.
    + by apply IH.
Qed.

Lemma tryDays_spec (this : TimetableGenerator) (e : TimetableEntry.t)
    (days : list string) (occ : gmap string (gset string))
    (R : string → gset string) :
  (∀ key, resourcesAt occ key = R key) →
  let found := find (cellFits this R e) (cellsOf days) in
  ∃ occ', tryDays this e days occ = (occ', assignCell e <$> found) ∧
          ∀ key, resourcesAt occ' key = occupy e R found key.
Proof.
  revert occ. induction days as [|day rest IH]; intros occ HR found.
  - exists occ. by split.
  - subst found. cbn [cellsOf flat_map tryDays]. rewrite find_app_split.
    destruct (tryTimeSlots_spec this e day TIME_SLOTS occ R HR) as (occ1 & -> & HR1).
    destruct (find (cellFits this R e) ((λ t, (day, t)) <$> TIME_SLOTS)) as [cell|].
    + exists occ1. by split.
    + simpl. apply IH. intros key. by rewrite HR1.
Qed.

(** ** The occupancy map and the sessions placed so far *)

Lemma facultyTag_inj (a b : TimetableEntry.t) :
  facultyTag a = facultyTag b ↔ TimetableEntry.facultyId a = TimetableEntry.facultyId b.
Proof. unfold facultyTag. simpl. split; [by intros [=]|by intros ->]. Qed.

Lemma roomTag_inj (a b : TimetableEntry.t) :
  roomTag a = roomTag b ↔ TimetableEntry.roomId a = TimetableEntry.roomId b.
Proof. unfold roomTag. simpl. split; [by intros [=]|by intros ->]. Qed.

Lemma facultyTag_roomTag (a b : TimetableEntry.t) : facultyTag a ≠ roomTag b.
Proof. unfold facultyTag, roomTag. simpl. by intros [=]. Qed.

Lemma elem_tagsAt (placed : list TimetableEntry.t) (key tag : string) :
  tag ∈ tagsAt placed key ↔
  ∃ o, o ∈ placed ∧ isScheduled o = true ∧ entryKey o = key ∧
       (tag = roomTag o ∨ tag = facultyTag o).
Proof.
  induction placed as [|o placed IH]; simpl.
  - split; [set_solver|]. intros (o & Ho & _). by apply elem_of_nil in Ho.
  - rewrite elem_of_union, IH. split.
    + intros [Hhere|(o' & Ho' & H)].
      * destruct (isScheduled o) eqn:Hs; [|set_solver].
        case_bool_decide as Hk; simpl in Hhere; [|set_solver].
        exists o. split; [by left|]. set_solver.
      * exists o'. split; [by right|done].
    + intros (o' & Ho' & Hs & Hk & Htag).
      apply elem_of_cons in Ho' as [->|Ho'].
      * left. rewrite Hs, bool_decide_eq_true_2 by done. simpl. set_solver.
      * right. by exists o'.
Qed.

Lemma tagsAt_snoc (placed : list TimetableEntry.t) (o : TimetableEntry.t) (key : string) :
  tagsAt (placed ++ [o]) key =
  tagsAt placed key ∪
  (if isScheduled o && bool_decide (entryKey o = key)
   then {[roomTag o]} ∪ {[facultyTag o]} else ∅).
Proof.
  induction placed as [|o' placed IH]; simpl; [set_solver|].
  rewrite IH. set_solver.
Qed.

Lemma isScheduled_assignCell (e : TimetableEntry.t) (cell : string * string) :
  cell ∈ GRID → isScheduled (assignCell e cell) = true ∧ cellOf (assignCell e cell) = cell.
Proof.
  intros Hc. split; [|by destruct cell].
  apply grid_scheduled. unfold onGrid. by destruct cell.
Qed.

(** The session that leaves one iteration of the assigner. *)
Lemma occupy_tagsAt (placed : list TimetableEntry.t) (e : TimetableEntry.t)
    (found : option (string * string)) (key : string) :
  isScheduled e = false →
  (∀ cell, found = Some cell → cell ∈ GRID) →
  occupy e (tagsAt placed) found key =
  tagsAt (placed ++ [default e (assignCell e <$> found)]) key.
Proof.
  intros He Hgrid. rewrite tagsAt_snoc. destruct found as [cell|]; simpl.
  - destruct (isScheduled_assignCell e cell) as [-> Hcell]; [by apply Hgrid|].
    replace (entryKey (assignCell e cell)) with (cellLabel cell) by by destruct cell.
    rewrite (bool_decide_ext (cellLabel cell = key) (key = cellLabel cell)) by done.
    case_bool_decide; simpl; set_solver.
  - rewrite He. simpl. set_solver.
Qed.

Lemma cellFits_cellFree (this : TimetableGenerator) (placed : list TimetableEntry.t)
    (e : TimetableEntry.t) (cell : string * string) :
  cell ∈ GRID →
  (∀ o, o ∈ placed → isScheduled o = true → onGrid o) →
  cellFits this (tagsAt placed) e cell =
  cellFree placed e cell &&
  isSlotAvailable this (TimetableEntry.facultyId e) (TimetableEntry.roomId e) cell.1 cell.2.
Proof.
  intros Hc Hwf. unfold cellFits. f_equal.
  apply eq_true_iff_eq. unfold cellFree.
  rewrite andb_true_iff, !negb_true_iff, !bool_decide_eq_false, !elem_tagsAt.
  rewrite forallb_forall. split.
  - intros [Hf Hr] o Ho. apply list_elem_of_In in Ho.
    apply negb_true_iff, andb_false_iff.
    destruct (decide (cellOf o = cell)) as [Hcell|Hcell];
      [right|left; by apply bool_decide_eq_false].
    assert (Hs : isScheduled o = true) by (apply grid_scheduled; unfold onGrid; by rewrite Hcell).
    assert (Hk : entryKey o = cellLabel cell) by by rewrite <- Hcell.
    apply orb_false_iff. unfold sameFaculty, sameRoom.
    rewrite !bool_decide_eq_false. split; intros Heq.
    + apply Hf. exists o. repeat split; try done. right. by apply facultyTag_inj.
    + apply Hr. exists o. repeat split; try done. left. by apply roomTag_inj.
  - intros Hall.
    assert (Hno : ∀ o, o ∈ placed → isScheduled o = true → entryKey o = cellLabel cell →
                       TimetableEntry.facultyId o ≠ TimetableEntry.facultyId e ∧
                       TimetableEntry.roomId o ≠ TimetableEntry.roomId e).
    { intros o Ho Hs Hk. specialize (Hall o (proj1 (list_elem_of_In _ _) Ho)).
      apply negb_true_iff, andb_false_iff in Hall.
      assert (Hcell : cellOf o = cell).
      { apply grid_labels_distinct; [by apply Hwf|done|done]. }
      destruct Hall as [Hall|Hall]; [by apply bool_decide_eq_false in Hall|].
      apply orb_false_iff in Hall. unfold sameFaculty, sameRoom in Hall.
      by rewrite !bool_decide_eq_false in Hall. }
    split; intros (o & Ho & Hs & Hk & [Htag|Htag]).
    + by apply facultyTag_roomTag in Htag.
    + apply facultyTag_inj in Htag. destruct (Hno o Ho Hs Hk). congruence.
    + apply roomTag_inj in Htag. destruct (Hno o Ho Hs Hk). congruence.
    + symmetry in Htag. by apply facultyTag_roomTag in Htag.
Qed.

(** ** The Slot Assigner is first fit over the sessions placed so far *)

Lemma find_ext_elem {A} (f g : A → bool) (l : list A) :
  (∀ x, x ∈ l → f x = g x) → find f l = find g l.
Proof.
  induction l as [|x l IH]; intros H; [done|]. simpl.
  rewrite (H x) by left. destruct (g x); [done|].
  apply IH. intros y Hy. apply H. by right.
Qed.

Lemma find_Some_elem {A} (f : A → bool) (l : list A) (x : A) :
  find f l = Some x → x ∈ l ∧ f x = true.
Proof. intros H. apply find_some in H. by rewrite list_elem_of_In. Qed.

Lemma placeBy_shape (ok : string * string → bool) (e : TimetableEntry.t) :
  isScheduled e = false →
  (placeBy ok e = e ∧ find ok GRID = None) ∨
  (∃ cell, find ok GRID = Some cell ∧ cell ∈ GRID ∧ ok cell = true ∧
           placeBy ok e = assignCell e cell).
Proof.
  intros He. unfold placeBy. destruct (find ok GRID) as [cell|] eqn:Hfind.
  - right. exists cell. apply find_Some_elem in Hfind as [??]. by repeat split.
  - by left.
Qed.

Lemma scheduleFrom_length (this : TimetableGenerator)
    (occ : gmap string (gset string)) (entries : list TimetableEntry.t) :
  length (scheduleFrom this occ entries) = length entries.
Proof.
  revert occ. induction entries as [|e rest IH]; intros occ; [done|].
  cbn [scheduleFrom]. destruct (tryDays this e WEEKDAYS occ) as [occ' r].
  simpl. by rewrite IH.
Qed.

Lemma scheduleFrom_cons (this : TimetableGenerator)
    (occ : gmap string (gset string)) (placed : list TimetableEntry.t)
    (e : TimetableEntry.t) (rest : list TimetableEntry.t) :
  (∀ key, resourcesAt occ key = tagsAt placed key) →
  (∀ o, o ∈ placed → isScheduled o = true → onGrid o) →
  isScheduled e = false →
  let o := placeBy (fitsAfter this placed e) e in
  ∃ occ', scheduleFrom this occ (e :: rest) = o :: scheduleFrom this occ' rest ∧
          (∀ key, resourcesAt occ' key = tagsAt (placed ++ [o]) key) ∧
          (∀ o', o' ∈ placed ++ [o] → isScheduled o' = true → onGrid o').
Proof.
  intros Hocc Hwf He o. cbn [scheduleFrom].
  destruct (tryDays_spec this e WEEKDAYS occ (tagsAt placed) Hocc) as (occ' & -> & Hocc').
  change (cellsOf WEEKDAYS) with GRID in *.
  assert (Hfind : find (cellFits this (tagsAt placed) e) GRID =
                  find (fitsAfter this placed e) GRID).
  { apply find_ext_elem. intros cell Hc. by apply cellFits_cellFree. }
  rewrite Hfind in *.
  assert (Ho : default e (assignCell e <$> find (fitsAfter this placed e) GRID) = o).
  { unfold o, placeBy. by destruct (find _ GRID). }
  exists occ'. rewrite Ho. split; [done|]. split.
  - intros key. rewrite Hocc', <- Ho. apply occupy_tagsAt; [done|].
    intros cell Hcell. by apply find_Some_elem in Hcell as [??].
  - intros o' [Ho'| ->%list_elem_of_singleton]%elem_of_app Hs; [by apply Hwf|].
    destruct (placeBy_shape (fitsAfter this placed e) e He) as [[Heq _]|(cell & _ & Hc & _ & Heq)].
    + fold o in Heq. congruence.
    + fold o in Heq. rewrite Heq. unfold onGrid.
      by destruct (isScheduled_assignCell e cell Hc) as [_ ->].
Qed.

Lemma scheduleFrom_lookup (this : TimetableGenerator)
    (occ : gmap string (gset string)) (placed entries : list TimetableEntry.t)
    (i : nat) (e : TimetableEntry.t) :
  (∀ key, resourcesAt occ key = tagsAt placed key) →
  (∀ o, o ∈ placed → isScheduled o = true → onGrid o) →
  Forall (λ e, isScheduled e = false) entries →
  entries !! i = Some e →
  scheduleFrom this occ entries !! i =
  Some (placeBy (fitsAfter this (placed ++ take i (scheduleFrom this occ entries)) e) e).
Proof.
  revert occ placed i. induction entries as [|e0 rest IH]; intros occ placed i Hocc Hwf Hun Hi.
  - by rewrite lookup_nil in Hi.
  - apply Forall_cons in Hun as [He0 Hun].
    destruct (scheduleFrom_cons this occ placed e0 rest Hocc Hwf He0) as (occ' & -> & Hocc' & Hwf').
    destruct i as [|i].
    + simpl in Hi. injection Hi as ->. simpl. by rewrite app_nil_r.
    + simpl in Hi. cbn [lookup list_lookup take].
      etrans; [apply (IH occ' _ i Hocc' Hwf' Hun Hi)|].
      by rewrite <- app_assoc.
Qed.

Lemma find_first {A} (f : A → bool) (l : list A) (x : A) :
  find f l = Some x →
  ∃ k, l !! k = Some x ∧ f x = true ∧ ∀ j y, j < k → l !! j = Some y → f y = false.
Proof.
  induction l as [|y l IH]; simpl; [done|].
  destruct (f y) eqn:Hy.
  - intros [= ->]. exists 0. repeat split; [done|]. lia.
  - intros (k & Hk & Hx & Hbefore)%IH. exists (S k). repeat split; [done..|].
    intros [|j] z Hj Hz; simpl in Hz; [congruence|]. apply (Hbefore j); [lia|done].
Qed.

Lemma find_None_elem {A} (f : A → bool) (l : list A) :
  find f l = None → ∀ x, x ∈ l → f x = false.
Proof. intros H x Hx. apply (find_none _ _ H). by apply list_elem_of_In. Qed.

Lemma isSlotAvailable_timeFree (this : TimetableGenerator) (e : TimetableEntry.t)
    (day timeSlot : string) :
  resolves this e →
  isSlotAvailable this (TimetableEntry.facultyId e) (TimetableEntry.roomId e) day timeSlot =
  timeFree this e timeSlot.
Proof.
  intros [[f Hf] [r Hr]]. unfold isSlotAvailable, timeFree, facultyUnavailable, roomUnavailable.
  rewrite Hf, Hr. unfold listsSlot, includes.
  destruct (Faculty.unavailableSlots f) as [lf|], (Room.unavailableSlots r) as [lr|]; simpl;
    repeat case_bool_decide; try done; exfalso; set_solver.
Qed.

Lemma scheduleEntries_first_fit_core (this : TimetableGenerator)
    (entries : list TimetableEntry.t) :
  Forall slotUnset entries →
  Forall (resolves this) entries →
  let out := scheduleEntries this entries in
  length GRID = 48 ∧
  length out = length entries ∧
  ∀ i e, entries !! i = Some e →
    firstFitAt this out i e.
Proof.
  intros Hun%(Forall_impl _ (λ e, isScheduled e = false));
    [|intros e; apply slotUnset_isScheduled].
  intros Hres out. split; [done|]. split; [apply scheduleFrom_length|].
  intros i e Hi. unfold firstFitAt. cbv zeta.
  set (ok := λ cell : string * string,
               cellFree (take i out) e cell && timeFree this e cell.2).
  assert (Hout : out !! i = Some (placeBy (fitsAfter this (take i out) e) e)).
  { apply (scheduleFrom_lookup this ∅ [] entries i e); try done.
    intros o Ho. by apply elem_of_nil in Ho. }
  assert (Hok : ∀ cell, fitsAfter this (take i out) e cell = ok cell).
  { intros cell. unfold fitsAfter, ok. f_equal. apply isSlotAvailable_timeFree.
    rewrite Forall_forall in Hres. apply Hres. by eapply list_elem_of_lookup_2. }
  rewrite Hout. unfold placeBy.
  destruct (find (fitsAfter this (take i out) e) GRID) as [cell|] eqn:Hfind.
  - left. apply find_first in Hfind as (k & Hk & Hfit & Hbefore).
    exists k, cell. split; [done|]. split; [by rewrite Hok in Hfit|]. split; [|done].
    intros j c Hj Hc. specialize (Hbefore j c Hj Hc). by rewrite Hok in Hbefore.
  - right. split; [|done]. intros cell Hc.
    assert (Hno := find_None_elem _ _ Hfind cell Hc). by rewrite Hok in Hno.
Qed.

(** C3. For every session list with unset slots whose faculty and room
    ids resolve in the catalog, the Slot Assigner gives the session at
    position [i] the first cell of the grid, in scan order (Monday to
    Saturday, and the 8 time labels within each day), such that no session
    placed before it in that cell carries its faculty id or its room id and
    the time label is in neither the faculty's nor the room's
    unavailable-slots list (a test on the time label alone); when no cell of
    the grid passes, the session is returned as it came, slot unset, and the
    next sessions are processed all the same. *)
Theorem scheduleEntries_first_fit (this : TimetableGenerator)
    (entries : list TimetableEntry.t) :
  Forall slotUnset entries →
  Forall (resolves this) entries →
  let out := scheduleEntries this entries in
  length GRID = 48 ∧
  length out = length entries ∧
  ∀ i e, entries !! i = Some e →
    firstFitAt this out i e.
Proof. apply scheduleEntries_first_fit_core. Qed.

(** ** The Session Expander *)

Lemma head_List_filter {A} (f : A → bool) (l : list A) (x : A) :
  head (List.filter f l) = Some x → x ∈ l ∧ f x = true.
Proof.
  intros H. assert (Hx : x ∈ List.filter f l) by by apply head_Some_elem_of.
  by rewrite list_elem_of_In, filter_In, <- list_elem_of_In in Hx.
Qed.

Lemma head_List_filter_None {A} (f : A → bool) (l : list A) :
  head (List.filter f l) = None → ∀ x, x ∈ l → f x = false.
Proof.
  intros H x Hx. apply head_None in H. destruct (f x) eqn:Hfx; [|done].
  assert (Hin : x ∈ List.filter f l) by by rewrite list_elem_of_In, filter_In, <- list_elem_of_In.
  rewrite H in Hin. by apply elem_of_nil in Hin.
Qed.

Lemma roomSuits_kindAppropriate (ty : SessionType) (room : Room.t) :
  roomSuits ty room = true ↔ kindAppropriate ty room.
Proof.
  destruct ty; simpl; by rewrite orb_true_iff, !bool_decide_eq_true.
Qed.

(** The room [createCourseEntries] selects. *)
Lemma selectRoom_spec (this : TimetableGenerator) (ty : SessionType) (r : Room.t) :
  selectRoom this ty = Some r →
  r ∈ rooms this ∧
  ((∃ r', r' ∈ rooms this ∧ kindAppropriate ty r') → kindAppropriate ty r) ∧
  ((∀ r', r' ∈ rooms this → ¬ kindAppropriate ty r') → head (rooms this) = Some r).
Proof.
  unfold selectRoom.
  destruct (head (List.filter (roomSuits ty) (rooms this))) as [r0|] eqn:Hhead.
  - intros [= ->]. apply head_List_filter in Hhead as [Hin Hsuits].
    apply roomSuits_kindAppropriate in Hsuits. split; [done|]. split; [done|].
    intros Hnone. by destruct (Hnone r Hin).
  - intros Hfirst. split; [by apply head_Some_elem_of|]. split; [|done].
    intros (r' & Hr' & Hsuits). apply roomSuits_kindAppropriate in Hsuits.
    by rewrite (head_List_filter_None _ _ Hhead r' Hr') in Hsuits.
Qed.

Lemma selectRoom_is_Some (this : TimetableGenerator) (ty : SessionType) :
  rooms this ≠ [] → is_Some (selectRoom this ty).
Proof.
  intros Hne. unfold selectRoom.
  destruct (head (List.filter (roomSuits ty) (rooms this))); [done|].
  by destruct (rooms this).
Qed.

Lemma selectFaculty_elem `{!JsRuntime} (this : TimetableGenerator) (course : Course.t)
    (program : Program.t) (f : Faculty.t) :
  selectFaculty this course program = Some f → f ∈ faculty this.
Proof.
  unfold selectFaculty.
  destruct (List.filter (isSuitableFaculty course program) (faculty this)) as [|f0 l] eqn:Hs.
  - simpl.
    destruct (head (List.filter (canTeach program) (faculty this))) as [f1|] eqn:Hhead.
    + intros [= ->]. by apply head_List_filter in Hhead as [? _].
    + apply head_Some_elem_of.
  - simpl. intros [= ->].
    assert (Hin : f ∈ List.filter (isSuitableFaculty course program) (faculty this))
      by (rewrite Hs; left).
    by rewrite list_elem_of_In, filter_In, <- list_elem_of_In in Hin; destruct Hin.
Qed.

Lemma selectFaculty_is_Some `{!JsRuntime} (this : TimetableGenerator) (course : Course.t)
    (program : Program.t) :
  faculty this ≠ [] → is_Some (selectFaculty this course program).
Proof.
  intros Hne. unfold selectFaculty.
  destruct (head match List.filter (isSuitableFaculty course program) (faculty this) with
                 | [] => _ | _ => _ end); [done|].
  by destruct (faculty this).
Qed.

(** Every session of a batch was built by [newEntry] from the course, the
    program and one record of each catalog. *)
Lemma createCourseEntries_elem `{!JsRuntime} (this : TimetableGenerator) (clk : nat → Z) (k : nat)
    (course : Course.t) (program : Program.t) (ty : SessionType) (hours : Z)
    (e : TimetableEntry.t) :
  e ∈ createCourseEntries this clk k course program ty hours →
  ∃ f r i, selectFaculty this course program = Some f ∧ selectRoom this ty = Some r ∧
           e = newEntry course program ty f r i (clk (k + i)%nat).
Proof.
  unfold createCourseEntries.
  destruct (selectFaculty this course program) as [f|]; [|by intros ?%elem_of_nil].
  destruct (selectRoom this ty) as [r|]; [|by intros ?%elem_of_nil].
  intros (i & -> & _)%list_elem_of_fmap. by exists f, r, i.
Qed.

Lemma courseEntries_elem `{!JsRuntime} (this : TimetableGenerator) (clk : nat → Z) (k : nat)
    (course : Course.t) (e : TimetableEntry.t) :
  e ∈ courseEntries this clk k course →
  ∃ program ty f r i stamp,
    findProgram this course = Some program ∧
    selectFaculty this course program = Some f ∧ selectRoom this ty = Some r ∧
    e = newEntry course program ty f r i stamp.
Proof.
  unfold courseEntries. destruct (findProgram this course) as [program|];
    [|by intros ?%elem_of_nil].
  intros [He|He]%elem_of_app; case_bool_decide; try (by apply elem_of_nil in He);
    apply createCourseEntries_elem in He as (f & r & i & Hf & Hr & ->); eauto 10.
Qed.

Lemma generateEntries_elem `{!JsRuntime} (this : TimetableGenerator) (clk : nat → Z) (k : nat)
    (sortedCourses : list Course.t) (e : TimetableEntry.t) :
  e ∈ generateEntries this clk k sortedCourses →
  ∃ course program ty f r i stamp,
    course ∈ sortedCourses ∧ findProgram this course = Some program ∧
    selectFaculty this course program = Some f ∧ selectRoom this ty = Some r ∧
    e = newEntry course program ty f r i stamp.
Proof.
  revert k. induction sortedCourses as [|c cs IH]; intros k; [by intros ?%elem_of_nil|].
  cbn [generateEntries]. intros [He|He]%elem_of_app.
  - apply courseEntries_elem in He as (p & ty & f & r & i & st & ? & ? & ? & ->).
    exists c, p, ty, f, r, i, st. repeat split; try done. by left.
  - apply IH in He as (c' & p & ty & f & r & i & st & ? & ? & ? & ? & ->).
    exists c', p, ty, f, r, i, st. repeat split; try done. by right.
Qed.

(** ** The assigner touches the slot only *)

Lemma setTimeSlot_same (e : TimetableEntry.t) :
  setTimeSlot e (TimetableEntry.timeSlot e) = e.
Proof. by destruct e. Qed.

Lemma scheduleFrom_fields (this : TimetableGenerator)
    (occ : gmap string (gset string)) (entries : list TimetableEntry.t) :
  Forall2 (λ e o, o = setTimeSlot e (TimetableEntry.timeSlot o))
          entries (scheduleFrom this occ entries).
Proof.
  revert occ. induction entries as [|e rest IH]; intros occ; [constructor|].
  cbn [scheduleFrom].
  destruct (tryDays_spec this e WEEKDAYS occ (resourcesAt occ)) as (occ' & -> & _); [done|].
  constructor; [|apply IH].
  destruct (find _ _) as [cell|]; simpl; [done|]. by rewrite setTimeSlot_same.
Qed.

Lemma generateTimetable_elem `{!JsRuntime} (this : TimetableGenerator) (clk : nat → Z)
    (selectedPrograms : list string) (o : TimetableEntry.t) :
  o ∈ GenerationResult.timetable (generateTimetable this clk selectedPrograms) →
  ∃ e, e ∈ generateEntries this clk 0
             (arraySort compareCourses (relevantCourses this selectedPrograms)) ∧
       o = setTimeSlot e (TimetableEntry.timeSlot o).
Proof.
  unfold generateTimetable.
  destruct (_ || _); [by intros ?%elem_of_nil|].
  destruct (_ =? _)%nat; [by intros ?%elem_of_nil|].
  cbn [GenerationResult.timetable]. intros Ho.
  apply list_elem_of_lookup in Ho as [i Hi].
  destruct (Forall2_lookup_r _ _ _ _ _ (scheduleFrom_fields this ∅ _) Hi) as (e & He & Heq).
  exists e. split; [by eapply list_elem_of_lookup_2|done].
Qed.

(** C7. Every session of a generation result carries the id and name of a
    room of the catalog that has a kind-appropriate category (theory:
    Classroom or Seminar Hall; practical: Laboratory or Computer Lab)
    whenever the catalog holds such a room; only when it holds none is the
    room the first room of the whole catalog. *)
Theorem room_category_respected `{!JsRuntime} (this : TimetableGenerator) (clk : nat → Z)
    (selectedPrograms : list string) :
  Forall
    (λ e, ∃ room,
       room ∈ rooms this ∧
       TimetableEntry.roomId e = Room.id room ∧
       TimetableEntry.roomName e = Room.name room ∧
       ((∃ r', r' ∈ rooms this ∧ kindAppropriate (TimetableEntry.type e) r') →
        kindAppropriate (TimetableEntry.type e) room) ∧
       ((∀ r', r' ∈ rooms this → ¬ kindAppropriate (TimetableEntry.type e) r') →
        head (rooms this) = Some room))
    (GenerationResult.timetable (generateTimetable this clk selectedPrograms)).
Proof.
  apply Forall_forall. intros o Ho.
  apply generateTimetable_elem in Ho as (e & He & ->).
  apply generateEntries_elem in He as (c & p & ty & f & r & i & st & _ & _ & _ & Hr & ->).
  apply selectRoom_spec in Hr as (Hin & Hsuit & Hfirst).
  by exists r.
Qed.

(** ** Assign, then detect *)

Lemma generateEntries_unset `{!JsRuntime} (this : TimetableGenerator) (clk : nat → Z) (k : nat)
    (sortedCourses : list Course.t) :
  Forall (λ e, isScheduled e = false) (generateEntries this clk k sortedCourses).
Proof.
  apply Forall_forall. intros e He.
  by apply generateEntries_elem in He as (c & p & ty & f & r & i & st & _ & _ & _ & _ & ->).
Qed.

Lemma find_is_Some {A} (f : A → bool) (l : list A) (x : A) :
  x ∈ l → f x = true → is_Some (find f l).
Proof.
  intros Hx Hfx. destruct (find f l) eqn:Hfind; [done|].
  by rewrite (find_None_elem _ _ Hfind x Hx) in Hfx.
Qed.

(** The sessions the expander hands to the assigner carry ids of catalog
    records. *)
Lemma generateEntries_resolves `{!JsRuntime} (this : TimetableGenerator) (clk : nat → Z)
    (k : nat) (sortedCourses : list Course.t) :
  Forall (resolves this) (generateEntries this clk k sortedCourses).
Proof.
  apply Forall_forall. intros e He.
  apply generateEntries_elem in He as (c & p & ty & f & r & i & st & _ & _ & Hf & Hr & ->).
  apply selectFaculty_elem in Hf. apply selectRoom_spec in Hr as [Hr _].
  split; simpl.
  - apply (find_is_Some _ _ f); [done|by apply bool_decide_eq_true_2].
  - apply (find_is_Some _ _ r); [done|by apply bool_decide_eq_true_2].
Qed.

(** What the expander hands over meets the conditions under which the
    assigner is first fit, and what the assigner returns meets the condition
    under which the detector is the detector of the specification. *)
Corollary generated_sessions_first_fit `{!JsRuntime} (this : TimetableGenerator)
    (clk : nat → Z) (k : nat) (sortedCourses : list Course.t) :
  let entries := generateEntries this clk k sortedCourses in
  let out := scheduleEntries this entries in
  ∀ i e, entries !! i = Some e → firstFitAt this out i e.
Proof.
  intros entries out.
  apply (scheduleEntries_first_fit_core this entries);
    [|apply generateEntries_resolves].
  eapply Forall_impl; [apply generateEntries_unset|].
  intros e. apply slotUnset_isScheduled.
Qed.

Lemma scheduleEntries_placed (this : TimetableGenerator)
    (entries : list TimetableEntry.t) (i : nat) (o : TimetableEntry.t) :
  Forall (λ e, isScheduled e = false) entries →
  scheduleEntries this entries !! i = Some o →
  ∃ e, entries !! i = Some e ∧
       o = placeBy (fitsAfter this (take i (scheduleEntries this entries)) e) e.
Proof.
  intros Hun Ho.
  assert (Hlt : i < length entries).
  { rewrite <- (scheduleFrom_length this ∅). by eapply lookup_lt_Some. }
  apply lookup_lt_is_Some in Hlt as [e He]. exists e. split; [done|].
  assert (Hspec := scheduleFrom_lookup this ∅ [] entries i e).
  unfold scheduleEntries in *. rewrite Hspec in Ho; try done.
  - by injection Ho as <-.
  - intros x Hx. by apply elem_of_nil in Hx.
Qed.

Lemma scheduleEntries_onGrid (this : TimetableGenerator)
    (entries : list TimetableEntry.t) :
  Forall (λ e, isScheduled e = false) entries →
  Forall (λ o, isScheduled o = false ∨ onGrid o) (scheduleEntries this entries).
Proof.
  intros Hun. apply Forall_lookup. intros i o Ho.
  destruct (scheduleEntries_placed this entries i o Hun Ho) as (e & He & ->).
  assert (Hue : isScheduled e = false).
  { rewrite Forall_forall in Hun. apply Hun. by eapply list_elem_of_lookup_2. }
  destruct (placeBy_shape (fitsAfter this (take i (scheduleEntries this entries)) e) e Hue)
    as [[-> _]|(cell & _ & Hc & _ & ->)]; [by left|right].
  unfold onGrid. by destruct (isScheduled_assignCell e cell Hc) as [_ ->].
Qed.

Lemma scheduleEntries_noDoubleBooking (this : TimetableGenerator)
    (entries : list TimetableEntry.t) :
  Forall (λ e, isScheduled e = false) entries →
  noDoubleBooking (scheduleEntries this entries).
Proof.
  intros Hun i j a b Hij Ha Hb Hsa Hsb Hcell.
  destruct (scheduleEntries_placed this entries j b Hun Hb) as (e & He & Hbe).
  assert (Hue : isScheduled e = false).
  { rewrite Forall_forall in Hun. apply Hun. by eapply list_elem_of_lookup_2. }
  destruct (placeBy_shape (fitsAfter this (take j (scheduleEntries this entries)) e) e Hue)
    as [[Heq _]|(cell & _ & Hc & Hfit & Heq)]; rewrite <- Hbe in Heq; [congruence|].
  unfold fitsAfter in Hfit. apply andb_true_iff in Hfit as [Hfree _].
  unfold cellFree in Hfree. rewrite forallb_forall in Hfree.
  assert (Hin : In a (take j (scheduleEntries this entries))).
  { apply list_elem_of_In. apply list_elem_of_lookup. exists i.
    by rewrite lookup_take_lt. }
  specialize (Hfree a Hin).
  assert (Hcb : cellOf b = cell).
  { rewrite Heq. by destruct (isScheduled_assignCell e cell Hc) as [_ ->]. }
  rewrite bool_decide_eq_true_2 in Hfree by congruence. simpl in Hfree.
  apply negb_true_iff, orb_false_iff in Hfree as [Hf Hr].
  unfold sameFaculty, sameRoom in Hf, Hr.
  apply bool_decide_eq_false in Hf, Hr. rewrite Heq. by destruct e.
Qed.

Corollary assigned_sessions_detected `{!JsRuntime} (this : TimetableGenerator)
    (clk : nat → Z) (k : nat) (sortedCourses : list Course.t) :
  let out := scheduleEntries this (generateEntries this clk k sortedCourses) in
  detectConflicts out = detectConflicts_spec out.
Proof.
  intros out. unfold detectConflicts_spec. rewrite rulesBy_detectBy.
  apply detectConflicts_on_grid, scheduleEntries_onGrid, generateEntries_unset.
Qed.

Lemma existsb_false_elem {A} (f : A → bool) (l : list A) :
  (∀ x, x ∈ l → f x = false) → existsb f l = false.
Proof.
  induction l as [|x l IH]; intros H; [done|]. simpl.
  rewrite (H x) by left. apply IH. intros y Hy. apply H. by right.
Qed.

Lemma groupCollisions_filter_nil (slot : string) (P : TimetableEntry.t → bool)
    (placed rest : list TimetableEntry.t) :
  (∀ l1 b l2 a, rest = l1 ++ b :: l2 → P b = true → a ∈ placed ++ l1 → P a = true →
     TimetableEntry.facultyId a ≠ TimetableEntry.facultyId b ∧
     TimetableEntry.roomId a ≠ TimetableEntry.roomId b) →
  groupCollisions slot (List.filter P placed) (List.filter P rest) = [].
Proof.
  revert placed. induction rest as [|b rest IH]; intros placed Hno; [done|].
  assert (Hrest : groupCollisions slot (List.filter P (placed ++ [b])) (List.filter P rest) = []).
  { apply IH. intros l1 b' l2 a -> Hb' Ha HPa.
    apply (Hno (b :: l1) b' l2 a); [done|done| |done].
    rewrite <- app_assoc in Ha. done. }
  rewrite List.filter_app in Hrest. simpl in *.
  destruct (P b) eqn:HPb; [|by rewrite app_nil_r in Hrest].
  cbn [groupCollisions]. rewrite Hrest.
  rewrite !existsb_false_elem; [done| |].
  - intros a Ha. apply list_elem_of_In, filter_In in Ha as [Ha HPa].
    apply bool_decide_eq_false. apply (Hno [] b rest a); try done.
    rewrite app_nil_r. by apply list_elem_of_In.
  - intros a Ha. apply list_elem_of_In, filter_In in Ha as [Ha HPa].
    apply bool_decide_eq_false. apply (Hno [] b rest a); try done.
    rewrite app_nil_r. by apply list_elem_of_In.
Qed.

Lemma flat_map_nil {A B} (f : A → list B) (l : list A) :
  (∀ x, x ∈ l → f x = []) → flat_map f l = [].
Proof.
  induction l as [|x l IH]; intros H; [done|]. simpl.
  rewrite (H x) by left. apply IH. intros y Hy. apply H. by right.
Qed.

(** On a timetable without double booking the detector reports the
    unscheduled sessions and nothing else. *)
Lemma detectConflicts_noDoubleBooking (timetable : list TimetableEntry.t) :
  Forall (λ e, isScheduled e = false ∨ onGrid e) timetable →
  noDoubleBooking timetable →
  detectConflicts timetable =
  unscheduledConflict <$> List.filter (λ e, negb (isScheduled e)) timetable.
Proof.
  intros Hwf Hno. rewrite detectConflicts_on_grid by done.
  unfold detectByCell, detectBy. rewrite flat_map_nil; [by rewrite app_nil_r|].
  intros cell _.
  apply (groupCollisions_filter_nil _ (λ e, isScheduled e && bool_decide (cellOf e = cell)) []).
  intros l1 b l2 a -> [Hsb Hcb%bool_decide_eq_true]%andb_true_iff Ha
         [Hsa Hca%bool_decide_eq_true]%andb_true_iff.
  simpl in Ha. apply list_elem_of_lookup in Ha as [i Hi].
  apply (Hno i (length l1) a b); try done; try congruence.
  - by eapply lookup_lt_Some.
  - rewrite lookup_app_l; [done|by eapply lookup_lt_Some].
  - by rewrite list_lookup_middle.
Qed.

Lemma arraySort_elem (cmp : Course.t → Course.t → Z) (l : list Course.t) (c : Course.t) :
  c ∈ arraySort cmp l ↔ c ∈ l.
Proof.
  assert (Hins : ∀ x l', c ∈ sortInsert cmp x l' ↔ c = x ∨ c ∈ l').
  { intros x l'. induction l' as [|y l' IH]; simpl.
    - rewrite list_elem_of_singleton, elem_of_nil. tauto.
    - case_bool_decide; rewrite !elem_of_cons; [tauto|]. rewrite IH. tauto. }
  induction l as [|x l IH]; simpl; [done|].
  rewrite Hins, elem_of_cons, IH. tauto.
Qed.

Lemma assign_then_detect_core `{!JsRuntime} (this : TimetableGenerator) (clk : nat → Z)
    (selectedPrograms : list string) :
  let result := generateTimetable this clk selectedPrograms in
  noDoubleBooking (GenerationResult.timetable result) ∧
  GenerationResult.conflicts result =
  unscheduledConflict <$>
    List.filter (λ e, negb (isScheduled e)) (GenerationResult.timetable result).
Proof.
  assert (Hnil : noDoubleBooking []).
  { intros i j a b _ Ha. by rewrite lookup_nil in Ha. }
  unfold generateTimetable.
  destruct (_ || _); [done|].
  destruct (_ =? _)%nat; [done|].
  cbn [GenerationResult.timetable GenerationResult.conflicts].
  set (entries := generateEntries this clk 0 _).
  assert (Hun : Forall (λ e, isScheduled e = false) entries)
    by apply generateEntries_unset.
  split; [by apply scheduleEntries_noDoubleBooking|].
  apply detectConflicts_noDoubleBooking.
  - by apply scheduleEntries_onGrid.
  - by apply scheduleEntries_noDoubleBooking.
Qed.

(** ** Kinds and severities of the conflict records *)

Lemma groupCollisions_kinds (slot : string) (seen group : list TimetableEntry.t) :
  Forall highResourceConflict (groupCollisions slot seen group).
Proof.
  revert seen. induction group as [|e group IH]; intros seen; [constructor|].
  cbn [groupCollisions]. rewrite !Forall_app. repeat split; [| |apply IH].
  - destruct (existsb _ _); constructor; [|constructor]. split; [done|by left].
  - destruct (existsb _ _); constructor; [|constructor]. split; [done|by right].
Qed.

Lemma Forall_flat_map_intro {A B} (P : B → Prop) (f : A → list B) (l : list A) :
  (∀ x, Forall P (f x)) → Forall P (flat_map f l).
Proof.
  intros H. induction l as [|x l IH]; [constructor|]. simpl.
  apply Forall_app. by split.
Qed.

(** C10. Every conflict record the Conflict Detector returns has severity
    high and kind faculty-conflict or room-conflict (so none of the other
    three kinds and neither of the other two severities); a session with an
    unset slot (no day or no time label) is reported, by the record
    [couldNotBeScheduled] of kind faculty-conflict. *)
Theorem detectConflicts_kinds (timetable : list TimetableEntry.t) :
  Forall highResourceConflict (detectConflicts timetable) ∧
  (∀ e, e ∈ timetable → isScheduled e = false →
        unscheduledConflict e ∈ detectConflicts timetable) ∧
  (∀ e, Constraint.type (unscheduledConflict e) = Constraint.faculty_conflict) ∧
  (∀ e, e ∈ timetable → slotUnset e →
        couldNotBeScheduled e ∈ detectConflicts timetable).
Proof.
  assert (Hreported : ∀ e, e ∈ timetable → isScheduled e = false →
                           unscheduledConflict e ∈ detectConflicts timetable).
  { rewrite detectConflicts_by_key. unfold detectBy.
    intros e He Hs. apply elem_of_app. left. apply list_elem_of_fmap_2.
    rewrite list_elem_of_In, filter_In, <- list_elem_of_In. by rewrite Hs. }
  split; [|split; [done|split; [done|]]].
  - rewrite detectConflicts_by_key. unfold detectBy. apply Forall_app. split.
    + apply Forall_fmap, Forall_forall. intros e _. split; [done|by left].
    + apply Forall_flat_map_intro. intros k. apply groupCollisions_kinds.
  - intros e He Hun. apply (Hreported e He). by apply slotUnset_isScheduled.
Qed.

(** ** The result record *)

Lemma length_zero_iff {A} (l : list A) : (length l =? 0)%nat = true ↔ l = [].
Proof. destruct l; simpl; split; done. Qed.

Lemma relevantCourses_elem (this : TimetableGenerator) (selectedPrograms : list string)
    (course : Course.t) :
  course ∈ relevantCourses this selectedPrograms ↔
  course ∈ courses this ∧ Course.program course ∈ selectedPrograms.
Proof.
  unfold relevantCourses, includes.
  by rewrite list_elem_of_In, filter_In, <- list_elem_of_In, bool_decide_eq_true.
Qed.

Lemma relevantCourses_nil (this : TimetableGenerator) (selectedPrograms : list string) :
  relevantCourses this selectedPrograms = [] ↔
  ∀ course, course ∈ courses this → Course.program course ∉ selectedPrograms.
Proof.
  split.
  - intros Hnil course Hc Hsel.
    assert (Hin : course ∈ relevantCourses this selectedPrograms)
      by by apply relevantCourses_elem.
    rewrite Hnil in Hin. by apply elem_of_nil in Hin.
  - intros Hall. destruct (relevantCourses this selectedPrograms) as [|c cs] eqn:Heq; [done|].
    exfalso. assert (Hc : c ∈ relevantCourses this selectedPrograms) by (rewrite Heq; left).
    apply relevantCourses_elem in Hc as [Hc Hs]. by apply (Hall c).
Qed.

Lemma relevantCourses_some (this : TimetableGenerator) (selectedPrograms : list string) :
  relevantCourses this selectedPrograms ≠ [] ↔
  ∃ course, course ∈ courses this ∧ Course.program course ∈ selectedPrograms.
Proof.
  split.
  - destruct (relevantCourses this selectedPrograms) as [|c cs] eqn:Heq; [done|].
    intros _. exists c. apply relevantCourses_elem. rewrite Heq. left.
  - intros (c & Hc & Hs) Hnil. by apply (proj1 (relevantCourses_nil _ _) Hnil c).
Qed.

Lemma findProgram_None (this : TimetableGenerator) (course : Course.t) :
  findProgram this course = None ↔
  ∀ p, p ∈ programs this → Program.id p ≠ Course.program course.
Proof.
  unfold findProgram. split.
  - intros Hnone p Hp. apply (find_None_elem _ _ Hnone) in Hp.
    by apply bool_decide_eq_false in Hp.
  - intros Hall. destruct (find _ _) as [p|] eqn:Hf; [|done].
    apply find_Some_elem in Hf as [Hp Hid%bool_decide_eq_true]. by destruct (Hall p Hp).
Qed.

Lemma guards_pass `{!JsRuntime} (this : TimetableGenerator) (clk : nat → Z)
    (selectedPrograms : list string) :
  inputSufficient this selectedPrograms →
  generateTimetable this clk selectedPrograms =
  let scheduledTimetable :=
    scheduleEntries this
      (generateEntries this clk 0
         (arraySort compareCourses (relevantCourses this selectedPrograms))) in
  let detectedConflicts := detectConflicts scheduledTimetable in
  GenerationResult.mk scheduledTimetable detectedConflicts
    (length (List.filter isHigh detectedConflicts) =? 0)%nat
    (if (length detectedConflicts =? 0)%nat then msgNoConflicts
     else msgConflicts (length detectedConflicts)).
Proof.
  intros (Hp & Hc & Hf & Hr & Hrel). unfold generateTimetable.
  destruct (programs this); [done|]. destruct (courses this); [done|].
  destruct (faculty this); [done|]. destruct (rooms this); [done|].
  cbn [length Nat.eqb orb].
  destruct (relevantCourses _ selectedPrograms) eqn:Heq; [done|]. done.
Qed.

Lemma guards_fail `{!JsRuntime} (this : TimetableGenerator) (clk : nat → Z)
    (selectedPrograms : list string) :
  ¬ inputSufficient this selectedPrograms →
  ∃ msg, generateTimetable this clk selectedPrograms = GenerationResult.mk [] [] false msg ∧
         ((programs this = [] ∨ courses this = [] ∨ faculty this = [] ∨ rooms this = [] →
           msg = msgMissingData) ∧
          (¬ (programs this = [] ∨ courses this = [] ∨ faculty this = [] ∨ rooms this = []) →
           msg = msgNoCourses)).
Proof.
  intros Hno. unfold generateTimetable, inputSufficient in *.
  destruct (programs this) as [|p ps]; [exists msgMissingData; split; [done|tauto]|].
  destruct (courses this) as [|c cs] eqn:Hcs; [exists msgMissingData; split; [done|tauto]|].
  destruct (faculty this) as [|f fs]; [exists msgMissingData; split; [done|tauto]|].
  destruct (rooms this) as [|r rs]; [exists msgMissingData; split; [done|tauto]|].
  cbn [length Nat.eqb orb].
  destruct (relevantCourses _ selectedPrograms) eqn:Hrel.
  - exists msgNoCourses. split; [done|]. split; [|done]. intros [?|[?|[?|?]]]; done.
  - exfalso. apply Hno. by repeat split.
Qed.

Lemma List_filter_isHigh_nil (conflicts : list Constraint.t) :
  (length (List.filter isHigh conflicts) =? 0)%nat = true ↔ noHighConflict conflicts.
Proof.
  rewrite length_zero_iff. unfold noHighConflict, isHigh.
  induction conflicts as [|c cs IH]; simpl; [by split; [constructor|]|].
  rewrite Forall_cons. case_bool_decide as Hc; [|tauto].
  split; [done|]. tauto.
Qed.

(** C4. The [success] flag of a generation result is true if and
    only if the input passed both guards (the four catalog collections are
    non-empty and some course belongs to a selected program) and the
    conflict list holds no conflict of high severity.  The equivalence is
    given with the two named predicates and once more written out. *)
Theorem success_iff `{!JsRuntime} (this : TimetableGenerator) (clk : nat → Z)
    (selectedPrograms : list string) :
  let result := generateTimetable this clk selectedPrograms in
  (GenerationResult.success result = true ↔
   inputSufficient this selectedPrograms ∧
   noHighConflict (GenerationResult.conflicts result)) ∧
  (GenerationResult.success result = true ↔
   (programs this ≠ [] ∧ courses this ≠ [] ∧ faculty this ≠ [] ∧ rooms this ≠ [] ∧
    ∃ course, course ∈ courses this ∧ Course.program course ∈ selectedPrograms) ∧
   ∀ c, c ∈ GenerationResult.conflicts result →
        Constraint.severity c ≠ Constraint.high).
Proof.
  intros result. subst result.
  cut (GenerationResult.success (generateTimetable this clk selectedPrograms) = true ↔
       inputSufficient this selectedPrograms ∧
       noHighConflict (GenerationResult.conflicts
                         (generateTimetable this clk selectedPrograms))).
  { intros Hfirst. split; [done|]. rewrite Hfirst.
    unfold inputSufficient, noHighConflict.
    by rewrite relevantCourses_some, Forall_forall. }
  assert (Hdec : inputSufficient this selectedPrograms ∨
                 ¬ inputSufficient this selectedPrograms).
  { unfold inputSufficient.
    destruct (programs this), (courses this), (faculty this), (rooms this),
      (relevantCourses this selectedPrograms); (by left) || (right; intros (?&?&?&?&?); done). }
  destruct Hdec as [Hok|Hno].
  - rewrite guards_pass by done. cbn [GenerationResult.success GenerationResult.conflicts].
    rewrite List_filter_isHigh_nil. tauto.
  - destruct (guards_fail this clk selectedPrograms Hno) as (msg & -> & _).
    simpl. split; [done|tauto].
Qed.

(** C5. If any of the four catalog collections is empty, or no course
    belongs to a selected program, the generation call returns an empty
    session list, an empty conflict list, [success = false] and a guidance
    message: the one asking for the missing catalogs in the first case, the
    one reporting that no course was found otherwise (both also given by
    their text).  No course belongs to a selected program when no course of
    the catalog has its program reference in the selection.  The call is a
    total function: it returns a result record on every input. *)
Theorem empty_input_result `{!JsRuntime} (this : TimetableGenerator) (clk : nat → Z)
    (selectedPrograms : list string) :
  programs this = [] ∨ courses this = [] ∨ faculty this = [] ∨ rooms this = [] ∨
  relevantCourses this selectedPrograms = [] →
  (∃ msg,
    generateTimetable this clk selectedPrograms = GenerationResult.mk [] [] false msg ∧
    ((programs this = [] ∨ courses this = [] ∨ faculty this = [] ∨ rooms this = [] →
      msg = msgMissingData) ∧
     (¬ (programs this = [] ∨ courses this = [] ∨ faculty this = [] ∨ rooms this = []) →
      msg = msgNoCourses)) ∧
    ((programs this = [] ∨ courses this = [] ∨ faculty this = [] ∨ rooms this = [] →
      msg = "Please ensure you have added programs, courses, faculty, and rooms before generating timetable.") ∧
     (¬ (programs this = [] ∨ courses this = [] ∨ faculty this = [] ∨ rooms this = []) →
      msg = "No courses found for selected programs."))) ∧
  (relevantCourses this selectedPrograms = [] ↔
   ∀ course, course ∈ courses this → Course.program course ∉ selectedPrograms).
Proof.
  intros Hempty. split; [|apply relevantCourses_nil].
  destruct (guards_fail this clk selectedPrograms) as (msg & Heq & Hmsg).
  { intros (?&?&?&?&?). tauto. }
  by exists msg.
Qed.

(** C1. For every catalog and selection, no two sessions of the result
    that the Slot Assigner left with a set slot and that share a faculty id,
    or share a room id, are in the same (day, time) cell; and the Conflict
    Detector, run on the assigner's output, reports no faculty collision and
    no room collision: the conflict list holds exactly the 'could not be
    scheduled' entries of the sessions left unscheduled.  Both facts are
    stated twice: with the code's test for a scheduled session and its record
    literal, and with [slotUnset] and the record [couldNotBeScheduled]. *)
Theorem assign_then_detect `{!JsRuntime} (this : TimetableGenerator) (clk : nat → Z)
    (selectedPrograms : list string) :
  let result := generateTimetable this clk selectedPrograms in
  noDoubleBooking (GenerationResult.timetable result) ∧
  GenerationResult.conflicts result =
  unscheduledConflict <$>
    List.filter (λ e, negb (isScheduled e)) (GenerationResult.timetable result) ∧
  (∀ i j a b, i < j →
     GenerationResult.timetable result !! i = Some a →
     GenerationResult.timetable result !! j = Some b →
     ¬ slotUnset a → ¬ slotUnset b → cellOf a = cellOf b →
     TimetableEntry.facultyId a ≠ TimetableEntry.facultyId b ∧
     TimetableEntry.roomId a ≠ TimetableEntry.roomId b) ∧
  GenerationResult.conflicts result =
  couldNotBeScheduled <$>
    List.filter (λ e, bool_decide (slotUnset e)) (GenerationResult.timetable result).
Proof.
  intros result. destruct (assign_then_detect_core this clk selectedPrograms) as [Hno Hc].
  fold result in Hno, Hc. split; [done|]. split; [done|]. split.
  - intros i j a b Hij Ha Hb Hsa Hsb. apply (Hno i j a b Hij Ha Hb).
    + rewrite <- bool_decide_not_slotUnset. by apply bool_decide_eq_true_2.
    + rewrite <- bool_decide_not_slotUnset. by apply bool_decide_eq_true_2.
  - rewrite Hc. f_equal. apply List_filter_ext_elem. intros e _.
    by rewrite bool_decide_slotUnset.
Qed.

(** ** The sessions of one course *)

Lemma createCourseEntries_batch `{!JsRuntime} (this : TimetableGenerator) (clk : nat → Z) (k : nat)
    (course : Course.t) (program : Program.t) (ty : SessionType) (hours : Z)
    (f : Faculty.t) (r : Room.t) :
  selectFaculty this course program = Some f →
  selectRoom this ty = Some r →
  (if bool_decide (0 < hours)%Z
   then createCourseEntries this clk k course program ty hours else []) =
  (λ i, newEntry course program ty f r i (clk (k + i)%nat)) <$> seq 0 (Z.to_nat hours).
Proof.
  intros Hf Hr. unfold createCourseEntries. rewrite Hf, Hr.
  case_bool_decide as Hpos; [done|].
  by replace (Z.to_nat hours) with 0%nat by lia.
Qed.

Lemma count_kind_batch (ty ty' : SessionType) (mk : nat → TimetableEntry.t) (n : nat) :
  (∀ i, TimetableEntry.type (mk i) = ty') →
  length (List.filter (λ e, bool_decide (TimetableEntry.type e = ty)) (mk <$> seq 0 n)) =
  if bool_decide (ty' = ty) then n else 0%nat.
Proof.
  intros Hty. rewrite List_filter_fmap. case_bool_decide as Heq.
  - rewrite List_filter_all, length_fmap, length_seq; [done|].
    intros i _. apply bool_decide_eq_true_2. by rewrite Hty.
  - rewrite List_filter_none; [done|].
    intros i _. apply bool_decide_eq_false_2. by rewrite Hty.
Qed.

Lemma newEntry_headcount (program : Program.t) :
  estimateStudentCount program = headcountOf (Program.type program).
Proof.
  unfold estimateStudentCount, headcountOf. cbn [find fst].
  repeat (destruct (bool_decide _); [done|]). done.
Qed.

(** C2. For every course with [t >= 0] theory hours and
    [p >= 0] practical hours whose program id is present in the program
    catalog, given at least one faculty member and one room, the Session
    Expander produces exactly [t] sessions of kind theory followed by
    exactly [p] sessions of kind practical, all bound to one faculty member
    of the catalog and, per kind, to one room of the catalog, with the slot
    unset; the sessions of a batch are identical except for the identifier,
    which carries the ordinal and the clock reading taken when the session
    is created.  The batch is given twice: by the object literal of the
    loop, and field by field ([sessionRecord]) with the identifier text
    written out; the program is one of the catalog whose id is the program
    reference of the course. *)
Theorem courseEntries_counts `{!JsRuntime} (this : TimetableGenerator) (clk : nat → Z) (k : nat)
    (course : Course.t) (program : Program.t) :
  findProgram this course = Some program →
  faculty this ≠ [] →
  rooms this ≠ [] →
  (0 ≤ Course.theoryHours course)%Z →
  (0 ≤ Course.practicalHours course)%Z →
  let t := Z.to_nat (Course.theoryHours course) in
  let p := Z.to_nat (Course.practicalHours course) in
  let batch := courseEntries this clk k course in
  ∃ f rT rP,
    f ∈ faculty this ∧ rT ∈ rooms this ∧ rP ∈ rooms this ∧
    batch =
      ((λ i, newEntry course program theory f rT i (clk (k + i)%nat)) <$> seq 0 t) ++
      ((λ i, newEntry course program practical f rP i (clk (k + t + i)%nat)) <$> seq 0 p) ∧
    Z.of_nat (length (List.filter (λ e, bool_decide (TimetableEntry.type e = theory)) batch))
      = Course.theoryHours course ∧
    Z.of_nat (length (List.filter (λ e, bool_decide (TimetableEntry.type e = practical)) batch))
      = Course.practicalHours course ∧
    Forall (λ e, TimetableEntry.timeSlot e = unsetSlot) batch ∧
    Program.id program = Course.program course ∧ program ∈ programs this ∧
    batch =
      ((λ i : nat, sessionRecord course program theory f rT
          (Course.id course +:+ "-theory-" +:+ pretty i +:+ "-" +:+
           pretty (clk (k + i)%nat))) <$> seq 0 t) ++
      ((λ i : nat, sessionRecord course program practical f rP
          (Course.id course +:+ "-practical-" +:+ pretty i +:+ "-" +:+
           pretty (clk (k + t + i)%nat))) <$> seq 0 p) ∧
    Forall slotUnset batch.
Proof.
  intros Hprog Hfac Hrooms Ht Hp t p batch.
  destruct (selectFaculty_is_Some this course program Hfac) as [f Hf].
  destruct (selectRoom_is_Some this theory Hrooms) as [rT HrT].
  destruct (selectRoom_is_Some this practical Hrooms) as [rP HrP].
  exists f, rT, rP.
  assert (Hbatch : batch =
    ((λ i, newEntry course program theory f rT i (clk (k + i)%nat)) <$> seq 0 t) ++
    ((λ i, newEntry course program practical f rP i (clk (k + t + i)%nat)) <$> seq 0 p)).
  { unfold batch, courseEntries. rewrite Hprog. cbv zeta.
    rewrite (createCourseEntries_batch this clk k course program theory _ f rT Hf HrT).
    rewrite length_fmap, length_seq.
    by rewrite (createCourseEntries_batch this clk _ course program practical _ f rP Hf HrP). }
  split; [by eapply selectFaculty_elem|].
  split; [by apply selectRoom_spec in HrT as [? _]|].
  split; [by apply selectRoom_spec in HrP as [? _]|].
  split; [done|]. rewrite Hbatch.
  set (mkT := λ i, newEntry course program theory f rT i (clk (k + i)%nat)).
  set (mkP := λ i, newEntry course program practical f rP i (clk (k + t + i)%nat)).
  rewrite !List.filter_app, !length_app.
  rewrite (count_kind_batch theory theory mkT), (count_kind_batch theory practical mkP),
    (count_kind_batch practical theory mkT), (count_kind_batch practical practical mkP)
    by done.
  simpl. split; [unfold t; lia|]. split; [unfold p; lia|].
  split; [apply Forall_app; split; apply Forall_fmap, Forall_forall; by intros i _|].
  apply find_Some_elem in Hprog as [Hin Hid%bool_decide_eq_true].
  split; [done|]. split; [done|]. split.
  - f_equal; apply list_fmap_ext; intros ? i _; unfold mkT, mkP, newEntry, sessionRecord;
      by rewrite newEntry_headcount.
  - apply Forall_app. split; apply Forall_fmap, Forall_forall; intros i _; by left.
Qed.

(** ** Courses whose program is missing *)

Lemma generateEntries_app `{!JsRuntime} (this : TimetableGenerator) (clk : nat → Z) (k : nat)
    (before after : list Course.t) :
  generateEntries this clk k (before ++ after) =
  generateEntries this clk k before ++
  generateEntries this clk (k + length (generateEntries this clk k before))%nat after.
Proof.
  revert k. induction before as [|c cs IH]; intros k.
  - simpl. by rewrite Nat.add_0_r.
  - cbn [app generateEntries]. rewrite IH, length_app, <- app_assoc.
    by rewrite Nat.add_assoc.
Qed.

(** C9. A course whose program reference matches no program id of the
    catalog contributes nothing: its iteration of the expansion loop pushes
    no session and takes no clock reading, so the sessions generated for a
    course list are those generated with the course left out; no session of
    a generation result belongs to its program reference and every conflict
    record of the result is about a session of the result; and when all the
    selected courses are such courses, the result is an empty timetable with
    no conflict, [success = true] and the message of a run without
    conflicts.  The last three parts say the same with the lookup, the
    conflict record, the guards and the message written out: no program of
    the catalog has the program reference of the course as its id. *)
Theorem orphan_course_skipped `{!JsRuntime} (this : TimetableGenerator) (clk : nat → Z)
    (course : Course.t) :
  findProgram this course = None →
  (∀ k, courseEntries this clk k course = []) ∧
  (∀ k before after,
     generateEntries this clk k (before ++ course :: after) =
     generateEntries this clk k (before ++ after)) ∧
  (∀ selectedPrograms,
     let result := generateTimetable this clk selectedPrograms in
     Forall (λ e, TimetableEntry.programId e ≠ Course.program course)
            (GenerationResult.timetable result) ∧
     Forall (λ c, ∃ e, e ∈ GenerationResult.timetable result ∧
                       c = unscheduledConflict e)
            (GenerationResult.conflicts result)) ∧
  (∀ selectedPrograms,
     inputSufficient this selectedPrograms →
     Forall (λ c, findProgram this c = None) (relevantCourses this selectedPrograms) →
     generateTimetable this clk selectedPrograms =
     GenerationResult.mk [] [] true msgNoConflicts) ∧
  (∀ p, p ∈ programs this → Program.id p ≠ Course.program course) ∧
  (∀ selectedPrograms,
     let result := generateTimetable this clk selectedPrograms in
     Forall (λ c, ∃ e, e ∈ GenerationResult.timetable result ∧ slotUnset e ∧
                       TimetableEntry.programId e ≠ Course.program course ∧
                       c = couldNotBeScheduled e)
            (GenerationResult.conflicts result)) ∧
  (∀ selectedPrograms,
     programs this ≠ [] → courses this ≠ [] → faculty this ≠ [] → rooms this ≠ [] →
     (∃ c, c ∈ courses this ∧ Course.program c ∈ selectedPrograms) →
     (∀ c p, c ∈ courses this → Course.program c ∈ selectedPrograms →
             p ∈ programs this → Program.id p ≠ Course.program c) →
     generateTimetable this clk selectedPrograms =
     {| GenerationResult.timetable := [];
        GenerationResult.conflicts := [];
        GenerationResult.success := true;
        GenerationResult.message :=
          "Timetable generated successfully without conflicts!" |}).
Proof.
  intros Horphan.
  assert (Hnone : ∀ k, courseEntries this clk k course = []).
  { intros k. unfold courseEntries. by rewrite Horphan. }
  assert (Hprog : ∀ sel e,
            e ∈ GenerationResult.timetable (generateTimetable this clk sel) →
            TimetableEntry.programId e ≠ Course.program course).
  { intros sel o Ho.
    apply generateTimetable_elem in Ho as (e & He & ->).
    apply generateEntries_elem in He as (c & p & ty & f & r & i & st & _ & Hp & _ & _ & ->).
    simpl. intros Heq.
    apply find_Some_elem in Hp as [Hin _].
    by apply (proj1 (findProgram_None this course) Horphan p Hin). }
  assert (Hempty : ∀ sel,
            inputSufficient this sel →
            Forall (λ c, findProgram this c = None) (relevantCourses this sel) →
            generateTimetable this clk sel =
            GenerationResult.mk [] [] true msgNoConflicts).
  { intros sel Hok Hall. rewrite guards_pass by done.
    assert (Hgen : ∀ cs k, Forall (λ c, findProgram this c = None) cs →
                           generateEntries this clk k cs = []).
    { induction cs as [|c cs IH]; intros k Hcs; [done|].
      apply Forall_cons in Hcs as [Hc Hcs]. cbn [generateEntries].
      unfold courseEntries at 1 2. rewrite Hc. simpl. by apply IH. }
    rewrite Hgen; [done|].
    apply Forall_forall. intros c Hc. rewrite Forall_forall in Hall. apply Hall.
    by apply arraySort_elem in Hc. }
  split; [done|]. split; [|split; [|split; [done|split; [|split]]]];
    [| |by apply findProgram_None| |].
  4: { intros sel Hp Hc Hf Hr Hsome Hall. apply Hempty.
       - repeat (split; [done|]). by apply relevantCourses_some.
       - apply Forall_forall. intros c [Hc' Hs]%relevantCourses_elem.
         apply findProgram_None. intros p Hp'. by apply Hall. }
  3: { intros sel result.
       destruct (assign_then_detect_core this clk sel) as [_ Hconf].
       fold result in Hconf. rewrite Hconf.
       apply Forall_fmap, Forall_forall. intros e He. exists e.
       apply list_elem_of_In, filter_In in He as [He%list_elem_of_In Hs].
       split; [done|]. split; [by apply slotUnset_isScheduled; destruct (isScheduled e)|].
       split; [by apply (Hprog sel)|done]. }
  - intros k before after. rewrite !generateEntries_app. f_equal.
    cbn [generateEntries]. rewrite Hnone. simpl. by rewrite Nat.add_0_r.
  - intros sel result. split.
    + apply Forall_forall. intros o Ho. by apply (Hprog sel).
    + destruct (assign_then_detect_core this clk sel) as [_ Hconf].
      fold result in Hconf. rewrite Hconf.
      apply Forall_fmap, Forall_forall. intros e He. exists e. split; [|done].
      by apply list_elem_of_In, filter_In in He as [He%list_elem_of_In _].
Qed.

(** ** Two runs on one catalog *)

Lemma createCourseEntries_eraseId `{!JsRuntime} (this : TimetableGenerator) (clk clk' : nat → Z)
    (k k' : nat) (course : Course.t) (program : Program.t) (ty : SessionType) (hours : Z) :
  eraseId <$> createCourseEntries this clk k course program ty hours =
  eraseId <$> createCourseEntries this clk' k' course program ty hours.
Proof.
  unfold createCourseEntries.
  destruct (selectFaculty this course program) as [f|]; [|done].
  destruct (selectRoom this ty) as [r|]; [|done].
  rewrite <- !list_fmap_compose. by apply list_fmap_ext.
Qed.

Lemma courseEntries_eraseId `{!JsRuntime} (this : TimetableGenerator) (clk clk' : nat → Z)
    (k k' : nat) (course : Course.t) :
  eraseId <$> courseEntries this clk k course = eraseId <$> courseEntries this clk' k' course.
Proof.
  unfold courseEntries. destruct (findProgram this course) as [program|]; [|done].
  cbv zeta. rewrite !fmap_app. f_equal.
  - case_bool_decide; [|done]. apply createCourseEntries_eraseId.
  - case_bool_decide; [|done]. apply createCourseEntries_eraseId.
Qed.

Lemma generateEntries_eraseId `{!JsRuntime} (this : TimetableGenerator) (clk clk' : nat → Z)
    (k k' : nat) (sortedCourses : list Course.t) :
  eraseId <$> generateEntries this clk k sortedCourses =
  eraseId <$> generateEntries this clk' k' sortedCourses.
Proof.
  revert k k'. induction sortedCourses as [|c cs IH]; intros k k'; [done|].
  cbn [generateEntries]. rewrite !fmap_app. f_equal; [apply courseEntries_eraseId|apply IH].
Qed.

Lemma tryTimeSlots_eraseId (this : TimetableGenerator) (e : TimetableEntry.t)
    (day : string) (timeSlots : list string) (occ : gmap string (gset string)) :
  tryTimeSlots this (eraseId e) day timeSlots occ =
  ((tryTimeSlots this e day timeSlots occ).1,
   eraseId <$> (tryTimeSlots this e day timeSlots occ).2).
Proof.
  revert occ. induction timeSlots as [|t rest IH]; intros occ; [done|].
  rewrite !tryTimeSlots_cons. cbv zeta.
  change (cellFits this ?R (eraseId e) ?c) with (cellFits this R e c).
  destruct (cellFits _ _ e (day, t)); [done|apply IH].
Qed.

Lemma tryDays_eraseId (this : TimetableGenerator) (e : TimetableEntry.t)
    (days : list string) (occ : gmap string (gset string)) :
  tryDays this (eraseId e) days occ =
  ((tryDays this e days occ).1, eraseId <$> (tryDays this e days occ).2).
Proof.
  revert occ. induction days as [|day rest IH]; intros occ; [done|].
  cbn [tryDays]. rewrite tryTimeSlots_eraseId.
  destruct (tryTimeSlots this e day TIME_SLOTS occ) as [occ' [o|]]; [done|apply IH].
Qed.

Lemma scheduleFrom_eraseId (this : TimetableGenerator)
    (occ : gmap string (gset string)) (entries : list TimetableEntry.t) :
  scheduleFrom this occ (eraseId <$> entries) = eraseId <$> scheduleFrom this occ entries.
Proof.
  revert occ. induction entries as [|e rest IH]; intros occ; [done|].
  rewrite fmap_cons. cbn [scheduleFrom]. rewrite tryDays_eraseId.
  destruct (tryDays this e WEEKDAYS occ) as [occ' [o|]]; simpl; by rewrite IH.
Qed.

Lemma existsb_fmap {A B} (p : B → bool) (f : A → B) (l : list A) :
  existsb p (f <$> l) = existsb (λ x, p (f x)) l.
Proof. induction l as [|x l IH]; [done|]. rewrite fmap_cons. simpl. by rewrite IH. Qed.

Lemma groupCollisions_eraseId (slot : string) (seen group : list TimetableEntry.t) :
  groupCollisions slot (eraseId <$> seen) (eraseId <$> group) =
  groupCollisions slot seen group.
Proof.
  revert seen. induction group as [|e group IH]; intros seen; [done|].
  rewrite fmap_cons. cbn [groupCollisions].
  change [eraseId e] with (eraseId <$> [e]). rewrite <- fmap_app, IH.
  by rewrite !existsb_fmap.
Qed.

Lemma detectConflicts_eraseId (timetable : list TimetableEntry.t) :
  detectConflicts (eraseId <$> timetable) = detectConflicts timetable.
Proof.
  rewrite !detectConflicts_by_key. unfold detectBy.
  rewrite !List_filter_fmap, <- !list_fmap_compose. f_equal.
  apply flat_map_ext. intros key.
  rewrite List_filter_fmap. apply (groupCollisions_eraseId key []).
Qed.

(** C8. Two runs of the generation call on one catalog and one selection,
    whatever the clock shows during either, return session lists that are
    equal once the identifiers are blanked (same courses, kinds, faculty,
    rooms and slots, in the same order), and equal conflict lists, success
    flags and messages. *)
Theorem generateTimetable_deterministic `{!JsRuntime} (this : TimetableGenerator)
    (selectedPrograms : list string) (clk1 clk2 : nat → Z) :
  let run1 := generateTimetable this clk1 selectedPrograms in
  let run2 := generateTimetable this clk2 selectedPrograms in
  eraseId <$> GenerationResult.timetable run1 = eraseId <$> GenerationResult.timetable run2 ∧
  GenerationResult.conflicts run1 = GenerationResult.conflicts run2 ∧
  GenerationResult.success run1 = GenerationResult.success run2 ∧
  GenerationResult.message run1 = GenerationResult.message run2.
Proof.
  unfold generateTimetable.
  destruct (_ || _); [done|].
  destruct (_ =? _)%nat; [done|].
  cbn [GenerationResult.timetable GenerationResult.conflicts
       GenerationResult.success GenerationResult.message].
  set (cs := arraySort compareCourses (relevantCourses this selectedPrograms)).
  assert (Htt : eraseId <$> scheduleEntries this (generateEntries this clk1 0 cs) =
                eraseId <$> scheduleEntries this (generateEntries this clk2 0 cs)).
  { unfold scheduleEntries. rewrite <- !scheduleFrom_eraseId.
    by rewrite (generateEntries_eraseId this clk1 clk2 0 0). }
  assert (Hc : detectConflicts (scheduleEntries this (generateEntries this clk1 0 cs)) =
               detectConflicts (scheduleEntries this (generateEntries this clk2 0 cs))).
  { rewrite <- (detectConflicts_eraseId (scheduleEntries this (generateEntries this clk1 0 cs))).
    by rewrite Htt, detectConflicts_eraseId. }
  by rewrite Hc.
Qed.


(** * The properties on sample catalogs *)

Lemma scheduleEntries_first_fit_witness :
  Forall slotUnset sampleEntries ∧
  Forall (resolves sampleCatalog) sampleEntries ∧
  let out := scheduleEntries sampleCatalog sampleEntries in
  length GRID = 48 ∧
  length out = length sampleEntries ∧
  ∀ i e, sampleEntries !! i = Some e →
    firstFitAt sampleCatalog out i e.
Proof.
  assert (H1 : Forall slotUnset sampleEntries) by by_computation.
  assert (H2 : Forall (resolves sampleCatalog) sampleEntries) by by_computation.
  split; [exact H1|]. split; [exact H2|].
  exact (scheduleEntries_first_fit sampleCatalog sampleEntries H1 H2).
Defined.

Lemma detectConflicts_refines_spec_witness :
  Forall (λ e, slotUnset e ∨ onGrid e) clashingTimetable ∧
  detectConflicts clashingTimetable = detectConflicts_spec clashingTimetable.
Proof.
  assert (H1 : Forall (λ e, slotUnset e ∨ onGrid e) clashingTimetable)
    by by_computation.
  split; [exact H1|]. exact (proj2 (detectConflicts_refines_spec clashingTimetable) H1).
Defined.

Lemma empty_input_result_witness :
  (programs emptyCatalog = [] ∨ courses emptyCatalog = [] ∨ faculty emptyCatalog = [] ∨
   rooms emptyCatalog = [] ∨ relevantCourses emptyCatalog ["p1"] = []) ∧
  (∃ msg,
    @generateTimetable asciiRuntime emptyCatalog tickingClock ["p1"] =
      GenerationResult.mk [] [] false msg ∧
    ((programs emptyCatalog = [] ∨ courses emptyCatalog = [] ∨ faculty emptyCatalog = [] ∨
      rooms emptyCatalog = [] → msg = msgMissingData) ∧
     (¬ (programs emptyCatalog = [] ∨ courses emptyCatalog = [] ∨ faculty emptyCatalog = [] ∨
         rooms emptyCatalog = []) → msg = msgNoCourses)) ∧
    ((programs emptyCatalog = [] ∨ courses emptyCatalog = [] ∨ faculty emptyCatalog = [] ∨
      rooms emptyCatalog = [] →
      msg = "Please ensure you have added programs, courses, faculty, and rooms before generating timetable.") ∧
     (¬ (programs emptyCatalog = [] ∨ courses emptyCatalog = [] ∨ faculty emptyCatalog = [] ∨
         rooms emptyCatalog = []) →
      msg = "No courses found for selected programs."))) ∧
  (relevantCourses emptyCatalog ["p1"] = [] ↔
   ∀ course, course ∈ courses emptyCatalog → Course.program course ∉ ["p1"]).
Proof.
  assert (H1 : programs emptyCatalog = [] ∨ courses emptyCatalog = [] ∨
               faculty emptyCatalog = [] ∨ rooms emptyCatalog = [] ∨
               relevantCourses emptyCatalog ["p1"] = []) by (left; reflexivity).
  split; [exact H1|].
  exact (@empty_input_result asciiRuntime emptyCatalog tickingClock ["p1"] H1).
Defined.

Lemma courseEntries_counts_witness :
  @findProgram sampleCatalog sampleCourse = Some sampleProgram ∧
  faculty sampleCatalog ≠ [] ∧
  rooms sampleCatalog ≠ [] ∧
  (0 ≤ Course.theoryHours sampleCourse)%Z ∧
  (0 ≤ Course.practicalHours sampleCourse)%Z ∧
  let batch := @courseEntries asciiRuntime sampleCatalog tickingClock 0 sampleCourse in
  ∃ f rT rP,
    f ∈ faculty sampleCatalog ∧ rT ∈ rooms sampleCatalog ∧ rP ∈ rooms sampleCatalog ∧
    batch =
      ((λ i, newEntry sampleCourse sampleProgram theory f rT i (tickingClock (0 + i)%nat))
         <$> seq 0 2) ++
      ((λ i, newEntry sampleCourse sampleProgram practical f rP i (tickingClock (0 + 2 + i)%nat))
         <$> seq 0 0) ∧
    Z.of_nat (length (List.filter (λ e, bool_decide (TimetableEntry.type e = theory)) batch))
      = 2%Z ∧
    Z.of_nat (length (List.filter (λ e, bool_decide (TimetableEntry.type e = practical)) batch))
      = 0%Z ∧
    Forall (λ e, TimetableEntry.timeSlot e = unsetSlot) batch ∧
    Program.id sampleProgram = Course.program sampleCourse ∧
    sampleProgram ∈ programs sampleCatalog ∧
    batch =
      ((λ i : nat, sessionRecord sampleCourse sampleProgram theory f rT
          (Course.id sampleCourse +:+ "-theory-" +:+ pretty i +:+ "-" +:+
           pretty (tickingClock (0 + i)%nat))) <$> seq 0 2) ++
      ((λ i : nat, sessionRecord sampleCourse sampleProgram practical f rP
          (Course.id sampleCourse +:+ "-practical-" +:+ pretty i +:+ "-" +:+
           pretty (tickingClock (0 + 2 + i)%nat))) <$> seq 0 0) ∧
    Forall slotUnset batch.
Proof.
  assert (H1 : findProgram sampleCatalog sampleCourse = Some sampleProgram) by reflexivity.
  assert (H2 : faculty sampleCatalog ≠ []) by discriminate.
  assert (H3 : rooms sampleCatalog ≠ []) by discriminate.
  assert (H4 : (0 ≤ Course.theoryHours sampleCourse)%Z) by (simpl; lia).
  assert (H5 : (0 ≤ Course.practicalHours sampleCourse)%Z) by (simpl; lia).
  repeat (split; [assumption|]).
  exact (@courseEntries_counts asciiRuntime sampleCatalog tickingClock 0
           sampleCourse sampleProgram H1 H2 H3 H4 H5).
Defined.

Lemma orphan_course_skipped_witness :
  findProgram orphanCatalog orphanCourse = None ∧
  (∀ k, @courseEntries asciiRuntime orphanCatalog tickingClock k orphanCourse = []) ∧
  (∀ k before after,
     @generateEntries asciiRuntime orphanCatalog tickingClock k (before ++ orphanCourse :: after) =
     @generateEntries asciiRuntime orphanCatalog tickingClock k (before ++ after)) ∧
  (∀ selectedPrograms,
     let result := @generateTimetable asciiRuntime orphanCatalog tickingClock selectedPrograms in
     Forall (λ e, TimetableEntry.programId e ≠ Course.program orphanCourse)
            (GenerationResult.timetable result) ∧
     Forall (λ c, ∃ e, e ∈ GenerationResult.timetable result ∧ c = unscheduledConflict e)
            (GenerationResult.conflicts result)) ∧
  (∀ selectedPrograms,
     inputSufficient orphanCatalog selectedPrograms →
     Forall (λ c, findProgram orphanCatalog c = None)
            (relevantCourses orphanCatalog selectedPrograms) →
     @generateTimetable asciiRuntime orphanCatalog tickingClock selectedPrograms =
     GenerationResult.mk [] [] true msgNoConflicts) ∧
  (∀ p, p ∈ programs orphanCatalog → Program.id p ≠ Course.program orphanCourse) ∧
  (∀ selectedPrograms,
     let result := @generateTimetable asciiRuntime orphanCatalog tickingClock selectedPrograms in
     Forall (λ c, ∃ e, e ∈ GenerationResult.timetable result ∧ slotUnset e ∧
                       TimetableEntry.programId e ≠ Course.program orphanCourse ∧
                       c = couldNotBeScheduled e)
            (GenerationResult.conflicts result)) ∧
  (∀ selectedPrograms,
     programs orphanCatalog ≠ [] → courses orphanCatalog ≠ [] →
     faculty orphanCatalog ≠ [] → rooms orphanCatalog ≠ [] →
     (∃ c, c ∈ courses orphanCatalog ∧ Course.program c ∈ selectedPrograms) →
     (∀ c p, c ∈ courses orphanCatalog → Course.program c ∈ selectedPrograms →
             p ∈ programs orphanCatalog → Program.id p ≠ Course.program c) →
     @generateTimetable asciiRuntime orphanCatalog tickingClock selectedPrograms =
     {| GenerationResult.timetable := [];
        GenerationResult.conflicts := [];
        GenerationResult.success := true;
        GenerationResult.message :=
          "Timetable generated successfully without conflicts!" |}).
Proof.
  assert (H1 : findProgram orphanCatalog orphanCourse = None) by reflexivity.
  split; [exact H1|].
  exact (@orphan_course_skipped asciiRuntime orphanCatalog tickingClock orphanCourse H1).
Defined.

(** Under a clock that ticks between two readings the identifiers of a
    batch differ in more than the ordinal. *)
Lemma courseEntries_not_identical_up_to_ordinal :
  ¬ identicalUpToOrdinal (@courseEntries asciiRuntime sampleCatalog tickingClock 0 sampleCourse).
Proof.
  intros (template & pre & post & Hbatch).
  assert (Hval : @courseEntries asciiRuntime sampleCatalog tickingClock 0 sampleCourse =
                 sampleEntries) by reflexivity.
  rewrite Hval in Hbatch. clear Hval.
  assert (H0 := f_equal (λ l, TimetableEntry.id <$> l !! 0%nat) Hbatch).
  assert (H1 := f_equal (λ l, TimetableEntry.id <$> l !! 1%nat) Hbatch).
  clear Hbatch. cbn [sampleEntries length seq fmap list_fmap lookup list_lookup option_fmap
                      option_map setId TimetableEntry.id newEntry] in H0, H1.
  replace (pretty 0%nat) with "0" in H0 by reflexivity.
  replace (pretty 1%nat) with "1" in H1 by reflexivity.
  injection H0 as H0. injection H1 as H1.
  replace (entryId sampleCourse theory 0 1000) with "c1-theory-0-1000" in H0 by reflexivity.
  replace (entryId sampleCourse theory 1 1001) with "c1-theory-1-1001" in H1 by reflexivity.
  clear template.
  repeat (destruct pre as [|? pre]; lazy [String.append] in H0, H1;
          [congruence|injection H0 as ? H0; injection H1 as ? H1; try congruence]).
Qed.

(** On an empty catalog the result holds no conflict at all and yet
    [success] is false. *)
Lemma success_without_conflicts_counterexample :
  let result := @generateTimetable asciiRuntime emptyCatalog tickingClock ["p1"] in
  ¬ (GenerationResult.success result = true ↔
     noHighConflict (GenerationResult.conflicts result)).
Proof.
  simpl. intros [_ Hback]. discriminate Hback. constructor.
Qed.

(** * The scenarios of the specification, run on the model *)

(** Scenario A: two theory sessions, Monday 09:00 and Monday 10:00. *)
Example scenario_A :
  let result := @generateTimetable asciiRuntime scenarioA tickingClock ["p1"] in
  cellOf <$> GenerationResult.timetable result =
    [("Monday", "09:00-10:00"); ("Monday", "10:00-11:00")] ∧
  TimetableEntry.type <$> GenerationResult.timetable result = [theory; theory] ∧
  GenerationResult.conflicts result = [] ∧
  GenerationResult.success result = true ∧
  GenerationResult.message result = msgNoConflicts.
Proof. by vm_compute. Qed.

(** Scenario B: the second course is moved on to Monday 10:00. *)
Example scenario_B :
  let result := @generateTimetable asciiRuntime scenarioB tickingClock ["p1"] in
  (λ e, (TimetableEntry.courseId e, cellOf e)) <$> GenerationResult.timetable result =
    [("c1", ("Monday", "09:00-10:00")); ("c2", ("Monday", "10:00-11:00"))] ∧
  GenerationResult.conflicts result = [] ∧
  GenerationResult.success result = true.
Proof. by vm_compute. Qed.

(** Scenario C: 48 sessions fill the grid in scan order, the 49th is left
    unscheduled and reported. *)
Example scenario_C :
  let result := @generateTimetable asciiRuntime scenarioC tickingClock ["p1"] in
  cellOf <$> GenerationResult.timetable result = GRID ++ [(EmptyString, EmptyString)] ∧
  GenerationResult.conflicts result =
    [Constraint.mk Constraint.faculty_conflict
       "Course MA101 (Algebra) could not be scheduled" Constraint.high] ∧
  GenerationResult.success result = false ∧
  GenerationResult.message result =
    "Timetable generated with 1 conflicts. Please review and resolve.".
Proof. by vm_compute. Qed.

(** The sample catalog: the faculty member is unavailable from 09:00 to
    10:00, so the two sessions go to Monday 10:00 and Monday 11:00. *)
Example sample_run :
  cellOf <$> scheduleEntries sampleCatalog sampleEntries =
    [("Monday", "10:00-11:00"); ("Monday", "11:00-12:00")].
Proof. by vm_compute. Qed.

(** Three sessions in one cell with one faculty member and one room: two
    faculty conflicts and two room conflicts, after the unscheduled one. *)
Example clashing_run :
  detectConflicts clashingTimetable =
    [Constraint.mk Constraint.faculty_conflict
       "Course MA101 (Algebra) could not be scheduled" Constraint.high;
     Constraint.mk Constraint.faculty_conflict
       "Faculty Ann has multiple classes at Monday-10:00-11:00" Constraint.high;
     Constraint.mk Constraint.room_conflict
       "Room Room 101 has multiple classes at Monday-10:00-11:00" Constraint.high;
     Constraint.mk Constraint.faculty_conflict
       "Faculty Ann has multiple classes at Monday-10:00-11:00" Constraint.high;
     Constraint.mk Constraint.room_conflict
       "Room Room 101 has multiple classes at Monday-10:00-11:00" Constraint.high].
Proof. by vm_compute. Qed.

(** Under a clock that stands still the sessions of a batch do differ in
    the ordinal alone. *)
Example frozen_clock_batch :
  identicalUpToOrdinal (@courseEntries asciiRuntime sampleCatalog (λ _, 1000%Z) 0 sampleCourse).
Proof.
  exists (newEntry sampleCourse sampleProgram theory sampleFaculty sampleRoom 0 1000),
         "c1-theory-", "-1000".
  by vm_compute.
Qed.

(** A run whose only selected course belongs to a missing program: nothing
    is generated and nothing is reported. *)
Example orphan_run :
  @generateTimetable asciiRuntime orphanCatalog tickingClock ["p9"] =
  GenerationResult.mk [] [] true msgNoConflicts.
Proof. by vm_compute. Qed.
